(** * A shallow embedding of [market_maker.py]

    The quoting client keeps its state in module-level globals and drives a
    single resting order through place / wait / cancel / reconcile.  The
    embedding keeps the globals in one record, passes it explicitly, and
    models each Python function by a Rocq function of the same name.

    Numbers.  Python's [float] is modelled by [pyfloat]: an exact rational, or
    one of the three non-finite values that [float()] can return and that the
    code tests with [math.isfinite].  Rounding and overflow of binary64
    arithmetic are outside the model; arithmetic on finite values is exact.
    A JSON integer is a Python [int]: [float()] of it raises [OverflowError]
    beyond the binary64 range and is otherwise taken as exact.  Theorems about
    prices and positions quantify over rationals; those about the capital
    cache and the order size range over all of [pyfloat]. *)

From Stdlib Require Import QArith Qabs Qminmax ZArith List Ascii String Bool.
From Stdlib Require Import Qpower Lia Lqa.
Import ListNotations.
Open Scope Q_scope.
Open Scope string_scope.
Set Warnings "-register-all".

(** ** Exceptions and fallible computations *)

Inductive exn : Type :=
| ValueError
| TypeError
| KeyError
| AttributeError
| OverflowError
| ZeroDivisionError
| OSError.

Inductive res (A : Type) : Type :=
| Ok (a : A)
| Raise (e : exn).
Arguments Ok {A} a.
Arguments Raise {A} e.

Definition bind {A B : Type} (m : res A) (k : A -> res B) : res B :=
  match m with
  | Ok a => k a
  | Raise e => Raise e
  end.

Notation "x <- m ;; k" := (bind m (fun x => k))
  (at level 61, m at next level, right associativity).

(** ** Floats *)

Module PyFloat.

Inductive pyfloat : Type :=
| Fin (q : Q)
| PosInf
| NegInf
| NaN.

Definition Qlt_bool (a b : Q) : bool := negb (Qle_bool b a).

(** [x < y]; every comparison with NaN is false. *)
Definition ltb (x y : pyfloat) : bool :=
  match x, y with
  | Fin a, Fin b => Qlt_bool a b
  | Fin _, PosInf => true
  | NegInf, Fin _ => true
  | NegInf, PosInf => true
  | _, _ => false
  end.

(** [x <= y] *)
Definition leb (x y : pyfloat) : bool :=
  match x, y with
  | Fin a, Fin b => Qle_bool a b
  | Fin _, PosInf => true
  | NegInf, Fin _ => true
  | NegInf, PosInf => true
  | PosInf, PosInf => true
  | NegInf, NegInf => true
  | _, _ => false
  end.

Definition gtb (x y : pyfloat) : bool := ltb y x.
Definition geb (x y : pyfloat) : bool := leb y x.

(** [x != y] *)
Definition neqb (x y : pyfloat) : bool :=
  match x, y with
  | Fin a, Fin b => negb (Qeq_bool a b)
  | PosInf, PosInf => false
  | NegInf, NegInf => false
  | _, _ => true
  end.

(** [bool(x)]: a float is falsy exactly when it is zero. *)
Definition truthy (x : pyfloat) : bool :=
  match x with
  | Fin q => negb (Qeq_bool q 0)
  | _ => true
  end.

(** [math.isfinite] *)
Definition isfinite (x : pyfloat) : bool :=
  match x with
  | Fin _ => true
  | _ => false
  end.

Definition neg (x : pyfloat) : pyfloat :=
  match x with
  | Fin q => Fin (- q)
  | PosInf => NegInf
  | NegInf => PosInf
  | NaN => NaN
  end.

Definition abs (x : pyfloat) : pyfloat :=
  match x with
  | Fin q => Fin (Qabs q)
  | PosInf | NegInf => PosInf
  | NaN => NaN
  end.

Definition add (x y : pyfloat) : pyfloat :=
  match x, y with
  | NaN, _ | _, NaN => NaN
  | Fin a, Fin b => Fin (a + b)
  | PosInf, NegInf | NegInf, PosInf => NaN
  | PosInf, _ | _, PosInf => PosInf
  | NegInf, _ | _, NegInf => NegInf
  end.

Definition sub (x y : pyfloat) : pyfloat := add x (neg y).

(** An infinity scaled by the sign of a rational. *)
Definition scale_inf (inf : pyfloat) (q : Q) : pyfloat :=
  if Qlt_bool 0 q then inf
  else if Qlt_bool q 0 then neg inf
  else NaN.

Definition mul (x y : pyfloat) : pyfloat :=
  match x, y with
  | NaN, _ | _, NaN => NaN
  | Fin a, Fin b => Fin (a * b)
  | Fin a, PosInf | PosInf, Fin a => scale_inf PosInf a
  | Fin a, NegInf | NegInf, Fin a => scale_inf NegInf a
  | PosInf, PosInf | NegInf, NegInf => PosInf
  | PosInf, NegInf | NegInf, PosInf => NegInf
  end.

(** [x / y]; Python raises on a zero divisor instead of returning an
    infinity. *)
Definition div (x y : pyfloat) : res pyfloat :=
  match y with
  | Fin b =>
      if Qeq_bool b 0 then Raise ZeroDivisionError
      else match x with
           | Fin a => Ok (Fin (a / b))
           | NaN => Ok NaN
           | inf => Ok (scale_inf inf b)
           end
  | NaN => Ok NaN
  | _ =>
      match x with
      | Fin _ => Ok (Fin 0)
      | _ => Ok NaN
      end
  end.

(** The builtin [max(a, b)]: keeps [a] unless [b > a]. *)
Definition max (a b : pyfloat) : pyfloat :=
  if gtb b a then b else a.

(** [int(x)]: truncation toward zero. *)
Definition to_int (x : pyfloat) : res Z :=
  match x with
  | Fin q => Ok (Z.quot (Qnum q) (Zpos (Qden q)))
  | NaN => Raise ValueError
  | _ => Raise OverflowError
  end.

End PyFloat.
Import PyFloat.

(** ** JSON values, as [json.loads] returns them *)

Inductive json : Type :=
| JNull
| JBool (b : bool)
| JNum (f : pyfloat)          (* a literal with a fraction or an exponent *)
| JInt (z : Z)                (* an integer literal: a Python [int] *)
| JStr (s : string)
| JArr (l : list json)
| JObj (kv : list (string * json)).

(** [d.get(k)] on the items of a dict. *)
Fixpoint dict_get (kv : list (string * json)) (k : string) : option json :=
  match kv with
  | [] => None
  | (k', v) :: rest => if String.eqb k' k then Some v else dict_get rest k
  end.

(** [v.get(k, default)]: only dicts have the method. *)
Definition py_get (v : json) (k : string) (default : json) : res json :=
  match v with
  | JObj kv => Ok (match dict_get kv k with Some x => x | None => default end)
  | _ => Raise AttributeError
  end.

(** [v[k]] with a string key. *)
Definition py_item (v : json) (k : string) : res json :=
  match v with
  | JObj kv => match dict_get kv k with Some x => Ok x | None => Raise KeyError end
  | _ => Raise TypeError
  end.

(** [bool(v)] *)
Definition json_truthy (v : json) : bool :=
  match v with
  | JNull => false
  | JBool b => b
  | JNum f => truthy f
  | JInt z => negb (Z.eqb z 0)
  | JStr s => negb (String.eqb s EmptyString)
  | JArr l => match l with [] => false | _ => true end
  | JObj kv => match kv with [] => false | _ => true end
  end.

Definition is_dict (v : json) : bool :=
  match v with
  | JObj _ => true
  | _ => false
  end.

(** The least magnitude of an [int] that does not round to a float:
    [2**1024 - 2**970]. *)
Definition FLOAT_OVERFLOW : Z := 2 ^ 1024 - 2 ^ 970.

(** ** Trading configuration (module constants) *)

Definition SPREAD : Q := 0.035 / 100.
Definition BASE_AMOUNT : Q := 0.047.
Definition CAPITAL_USAGE_PERCENT : Q := 0.99.
Definition SAFETY_MARGIN_PERCENT : Q := 0.01.
Definition ORDER_TIMEOUT : Q := 90.
Definition AVELLANEDA_REFRESH_INTERVAL : Q := 900.

Inductive side : Type := Buy | Sell.

Definition side_eqb (a b : side) : bool :=
  match a, b with
  | Buy, Buy | Sell, Sell => true
  | _, _ => false
  end.

(** ** Global state *)

Record globals : Type := mkGlobals {
  current_order_id : option Z;
  last_mid_price : option pyfloat;
  order_side : side;
  available_capital : option pyfloat;
  portfolio_value : option pyfloat;
  account_state_received : bool;
  current_position_size : pyfloat;
  last_order_base_amount : pyfloat;
  avellaneda_params : option json;
  last_avellaneda_update : Q
}.

Definition set_current_order_id (v : option Z) (g : globals) : globals :=
  mkGlobals v (last_mid_price g) (order_side g) (available_capital g)
    (portfolio_value g) (account_state_received g) (current_position_size g)
    (last_order_base_amount g) (avellaneda_params g) (last_avellaneda_update g).

Definition set_last_mid_price (v : option pyfloat) (g : globals) : globals :=
  mkGlobals (current_order_id g) v (order_side g) (available_capital g)
    (portfolio_value g) (account_state_received g) (current_position_size g)
    (last_order_base_amount g) (avellaneda_params g) (last_avellaneda_update g).

Definition set_order_side (v : side) (g : globals) : globals :=
  mkGlobals (current_order_id g) (last_mid_price g) v (available_capital g)
    (portfolio_value g) (account_state_received g) (current_position_size g)
    (last_order_base_amount g) (avellaneda_params g) (last_avellaneda_update g).

Definition set_capital (ac pv : pyfloat) (g : globals) : globals :=
  mkGlobals (current_order_id g) (last_mid_price g) (order_side g) (Some ac)
    (Some pv) true (current_position_size g)
    (last_order_base_amount g) (avellaneda_params g) (last_avellaneda_update g).

Definition set_current_position_size (v : pyfloat) (g : globals) : globals :=
  mkGlobals (current_order_id g) (last_mid_price g) (order_side g)
    (available_capital g) (portfolio_value g) (account_state_received g) v
    (last_order_base_amount g) (avellaneda_params g) (last_avellaneda_update g).

Definition set_last_order_base_amount (v : pyfloat) (g : globals) : globals :=
  mkGlobals (current_order_id g) (last_mid_price g) (order_side g)
    (available_capital g) (portfolio_value g) (account_state_received g)
    (current_position_size g) v (avellaneda_params g) (last_avellaneda_update g).

Definition set_avellaneda_params (v : option json) (g : globals) : globals :=
  mkGlobals (current_order_id g) (last_mid_price g) (order_side g)
    (available_capital g) (portfolio_value g) (account_state_received g)
    (current_position_size g) (last_order_base_amount g) v
    (last_avellaneda_update g).

Definition set_last_avellaneda_update (v : Q) (g : globals) : globals :=
  mkGlobals (current_order_id g) (last_mid_price g) (order_side g)
    (available_capital g) (portfolio_value g) (account_state_received g)
    (current_position_size g) (last_order_base_amount g) (avellaneda_params g) v.

(** The module's initial bindings. *)
Definition initial_globals : globals :=
  mkGlobals None None Buy None None false (Fin 0) (Fin 0) None 0.

(** ** Stream handlers *)

Section Handlers.

(** [float(s)] on a string is Python's parser; the environment constants
    come from the process environment and the market lookup. *)
Variable float_of_str : string -> option pyfloat.
Variable ACCOUNT_INDEX : Z.
Variable market_key : string.   (* str(MARKET_ID) *)

(** [float(v)].  An [int] converts when it rounds to a float, that is
    below [FLOAT_OVERFLOW] in magnitude; beyond that [float] raises
    [OverflowError]. *)
Definition py_float (v : json) : res pyfloat :=
  match v with
  | JNull => Raise TypeError
  | JBool b => Ok (Fin (if b then 1 else 0))
  | JNum f => Ok f
  | JInt z =>
      if Z.ltb (Z.abs z) FLOAT_OVERFLOW
      then Ok (Fin (inject_Z z))
      else Raise OverflowError
  | JStr s =>
      match float_of_str s with
      | Some f => Ok f
      | None => Raise ValueError
      end
  | JArr _ | JObj _ => Raise TypeError
  end.

(** [except (ValueError, TypeError)]: the handler swallows these two and
    lets every other exception escape. *)
Definition except_value_type {A : Type} (body : res A) (handler : A) : res A :=
  match body with
  | Raise ValueError | Raise TypeError => Ok handler
  | r => r
  end.

Definition on_user_stats_update (account_id : Z) (stats : json) (g : globals)
  : res globals :=
  except_value_type
    (if Z.eqb account_id ACCOUNT_INDEX then
       a <- py_get stats "available_balance" (JNum (Fin 0)) ;;
       new_available_capital <- py_float a ;;
       p <- py_get stats "portfolio_value" (JNum (Fin 0)) ;;
       new_portfolio_value <- py_float p ;;
       if gtb new_available_capital (Fin 0) && gtb new_portfolio_value (Fin 0)
       then Ok (set_capital new_available_capital new_portfolio_value g)
       else Ok g
     else Ok g)
    g.

(** The positions part of [on_account_all_update].  The trade ledger and the
    readiness event are not part of [globals]; an exception raised while the
    position is being read leaves [current_position_size] as it was, whether
    it is caught here or by the subscriber task. *)
Definition on_account_all_update (account_id : Z) (data : json) (g : globals)
  : globals :=
  if Z.eqb account_id ACCOUNT_INDEX then
    match
      (new_positions <- py_get data "positions" (JObj []) ;;
       market_position <- py_get new_positions market_key JNull ;;
       if json_truthy market_position
       then (p <- py_get market_position "position" (JNum (Fin 0)) ;; py_float p)
       else Ok (Fin 0))
    with
    | Ok new_size =>
        if neqb new_size (current_position_size g)
        then set_current_position_size new_size g
        else g
    | Raise _ => g
    end
  else g.

(** What a stats update reports under a key ([stats.get(key, 0)]); the
    default only ever reaches [float()], which takes the integer zero to the
    float zero. *)
Definition reported (kv : list (string * json)) (key : string) : json :=
  match dict_get kv key with
  | Some v => v
  | None => JNum (Fin 0)
  end.

(** Both reported values parse as numbers and are strictly positive. *)
Definition both_positive (kv : list (string * json)) (x y : pyfloat) : Prop :=
  py_float (reported kv "available_balance") = Ok x /\
  py_float (reported kv "portfolio_value") = Ok y /\
  gtb x (Fin 0) = true /\ gtb y (Fin 0) = true.

(** The reported value under [key] is an integer beyond the float range. *)
Definition overflows (kv : list (string * json)) (key : string) : Prop :=
  py_float (reported kv key) = Raise OverflowError.

End Handlers.

(** The globals a capital update has no business with. *)
Definition same_order_state (g g' : globals) : Prop :=
  current_order_id g' = current_order_id g /\
  last_mid_price g' = last_mid_price g /\
  order_side g' = order_side g /\
  current_position_size g' = current_position_size g /\
  last_order_base_amount g' = last_order_base_amount g /\
  avellaneda_params g' = avellaneda_params g /\
  last_avellaneda_update g' = last_avellaneda_update g.

(** ** Quote parameters: loading and validation *)

(** What [open(p)] followed by [json.load(f)] does for one candidate path. *)
Inductive file_read : Type :=
| FileNotFound            (* open raises FileNotFoundError *)
| Unreadable              (* any other exception, e.g. PermissionError *)
| InvalidJson             (* json.load raises JSONDecodeError *)
| Loaded (data : json).

(** Outcome of the [for p in candidates] loop. *)
Inductive scan : Type :=
| ScanData (data : option json)   (* loop left normally or by [break] *)
| ScanReturnFalse                 (* [return False] on invalid JSON *)
| ScanRaise.                      (* exception for the outer handler *)

Fixpoint scan_candidates (reads : list file_read) : scan :=
  match reads with
  | [] => ScanData None
  | FileNotFound :: rest => scan_candidates rest
  | InvalidJson :: _ => ScanReturnFalse
  | Unreadable :: _ => ScanRaise
  | Loaded data :: _ => ScanData (Some data)
  end.

(** [os.path.join(d, name)] for a relative [name]. *)
Definition ends_with_slash (d : string) : bool :=
  match String.get (String.length d - 1)%nat d with
  | Some c => Ascii.eqb c "/"%char
  | None => false
  end.

Definition path_join (d name : string) : string :=
  if String.eqb d "" then name
  else if ends_with_slash d then d ++ name
  else d ++ "/" ++ name.

Section Pricing.

Variable float_of_str : string -> option pyfloat.
Variable PARAMS_DIR : string.
Variable MARKET_SYMBOL : string.
Variable REQUIRE_PARAMS : bool.

Definition params_file_name : string :=
  "avellaneda_parameters_" ++ MARKET_SYMBOL ++ ".json".

Definition candidates : list string :=
  [ path_join PARAMS_DIR params_file_name;
    "params/" ++ params_file_name;
    params_file_name;
    "TRADER/" ++ params_file_name ].

(** Lines 376-390: [Ok true] when the offsets pass, [Ok false] for each
    [return False], [Raise] for what the outer handler catches. *)
Definition validate_params (data : json) : res bool :=
  lo <- py_get data "limit_orders" JNull ;;
  if negb (is_dict lo) then Ok false
  else
    da <- py_get lo "delta_a" JNull ;;
    db <- py_get lo "delta_b" JNull ;;
    match (x <- py_float float_of_str da ;;
           y <- py_float float_of_str db ;;
           Ok (x, y)) with
    | Raise _ => Ok false                      (* except Exception *)
    | Ok (x, y) =>
        if negb (isfinite x && isfinite y)
           || ltb x (Fin 0) || ltb y (Fin 0)
        then Ok false
        else Ok true
    end.

(** The cache is served while it is non-empty and younger than the refresh
    interval. *)
Definition cache_fresh (now : Q) (g : globals) : bool :=
  match avellaneda_params g with
  | Some _ =>
      Qlt_bool (now - last_avellaneda_update g) AVELLANEDA_REFRESH_INTERVAL
  | None => false
  end.

Definition load_avellaneda_parameters
    (now : Q) (fs : string -> file_read) (g : globals) : bool * globals :=
  if cache_fresh now g then (true, g)
  else
    let g1 := set_avellaneda_params None g in
    match scan_candidates (map fs candidates) with
    | ScanReturnFalse => (false, g1)
    | ScanRaise => (false, set_avellaneda_params None g1)
    | ScanData None => (false, g1)
    | ScanData (Some data) =>
        if negb (json_truthy data) then (false, g1)
        else
          match validate_params data with
          | Ok true =>
              (true,
               set_last_avellaneda_update now
                 (set_avellaneda_params (Some data) g1))
          | Ok false => (false, g1)
          | Raise _ => (false, set_avellaneda_params None g1)
          end
    end.

Definition params_truthy (g : globals) : bool :=
  match avellaneda_params g with
  | Some data => json_truthy data
  | None => false
  end.

(** [float(avellaneda_params['limit_orders'][key])] *)
Definition param_offset (g : globals) (key : string) : res pyfloat :=
  match avellaneda_params g with
  | Some data =>
      lo <- py_item data "limit_orders" ;;
      v <- py_item lo key ;;
      py_float float_of_str v
  | None => Raise TypeError
  end.

Definition calculate_order_price
    (now : Q) (fs : string -> file_read) (mid_price : pyfloat) (s : side)
    (g : globals) : res (option pyfloat) * globals :=
  let (ok, g') := load_avellaneda_parameters now fs g in
  if ok && params_truthy g' then
    (match s with
     | Buy => d <- param_offset g' "delta_b" ;; Ok (Some (sub mid_price d))
     | Sell => d <- param_offset g' "delta_a" ;; Ok (Some (add mid_price d))
     end, g')
  else if REQUIRE_PARAMS then (Ok None, g')
  else
    (Ok (Some (match s with
               | Buy => mul mid_price (sub (Fin 1) (Fin SPREAD))
               | Sell => mul mid_price (add (Fin 1) (Fin SPREAD))
               end)), g').

End Pricing.

(** ** Order size *)

Section Sizing.

Variable USE_DYNAMIC_SIZING : bool.

Definition calculate_dynamic_base_amount
    (current_mid_price : option pyfloat) (g : globals) : res pyfloat :=
  if negb USE_DYNAMIC_SIZING then Ok (Fin BASE_AMOUNT)
  else
    match available_capital g with
    | None => Ok (Fin BASE_AMOUNT)
    | Some capital =>
        if leb capital (Fin 0) then Ok (Fin BASE_AMOUNT)
        else
          let usable_capital :=
            mul capital (sub (Fin 1) (Fin SAFETY_MARGIN_PERCENT)) in
          let order_capital :=
            mul usable_capital (Fin CAPITAL_USAGE_PERCENT) in
          match current_mid_price with
          | Some mid =>
              if truthy mid && gtb mid (Fin 0) then
                dynamic <- div order_capital mid ;;
                Ok (max dynamic (Fin 0.001))
              else Ok (Fin BASE_AMOUNT)
          | None => Ok (Fin BASE_AMOUNT)
          end
    end.

End Sizing.


(** ** The trading transport and the order functions *)

(** What an awaited transport call yields: [(tx, tx_hash, None)], a non-empty
    [err], or an exception. *)
Inductive reply : Type :=
| Ack
| Err (msg : string)
| Throws.

Inductive request : Type :=
| CreateOrder (client_order_index base_amount price : Z)
              (is_ask reduce_only : bool)
| CancelAllOrders.

(** The log lines of the order functions. *)
Inductive log_line : Type :=
| LogCancelling (order_id : Z)
| LogCancelError (msg : string)
| LogCancelled
| LogCancelException
| LogPlacing (s : side) (base_amount price : pyfloat) (order_id : Z)
| LogPlaceError (s : side) (msg : string)
| LogPlaced (s : side)
| LogPlaceException
| LogClosing (position_size sell_price : pyfloat)
| LogCloseError (msg : string)
| LogClosePlaced
| LogCloseException.

(** The globals together with what the client has exchanged with the outside:
    the requests sent, the log written, and [acked], the orders whose
    placement the transport acknowledged since its last acknowledged
    cancel-all.  [acked] is history kept for the proofs; the program does not
    read it. *)
Record world : Type := mkWorld {
  glob : globals;
  acked : list Z;
  requests : list request;
  log : list log_line
}.

Definition with_glob (f : globals -> globals) (w : world) : world :=
  mkWorld (f (glob w)) (acked w) (requests w) (log w).

Definition send (rq : request) (w : world) : world :=
  mkWorld (glob w) (acked w) (requests w ++ [rq]) (log w).

Definition write_log (l : log_line) (w : world) : world :=
  mkWorld (glob w) (acked w) (requests w) (log w ++ [l]).

Definition set_acked (a : list Z) (w : world) : world :=
  mkWorld (glob w) a (requests w) (log w).

Definition initial_world : world := mkWorld initial_globals [] [] [].

Definition cancel_order (r : reply) (order_id : Z) (w : world) : bool * world :=
  let w1 := send CancelAllOrders (write_log (LogCancelling order_id) w) in
  match r with
  | Err msg => (false, write_log (LogCancelError msg) w1)
  | Ack =>
      (true,
       with_glob (set_current_order_id None)
         (set_acked [] (write_log LogCancelled w1)))
  | Throws => (false, write_log LogCancelException w1)
  end.

Section Orders.

Variable AMOUNT_TICK_SIZE : Q.
Variable PRICE_TICK_SIZE : Q.

(** [int(x / tick)] *)
Definition scaled (x : pyfloat) (tick : Q) : res Z :=
  q <- div x (Fin tick) ;; to_int q.

Definition place_order
    (r : reply) (s : side) (price : pyfloat) (order_id : Z)
    (base_amount : pyfloat) (w : world) : res (bool * world) :=
  let is_ask := side_eqb s Sell in
  base_amount_scaled <- scaled base_amount AMOUNT_TICK_SIZE ;;
  price_scaled <- scaled price PRICE_TICK_SIZE ;;
  let w1 :=
    send (CreateOrder order_id base_amount_scaled price_scaled
            is_ask (side_eqb s Sell))
      (write_log (LogPlacing s base_amount price order_id) w) in
  match r with
  | Err msg => Ok (false, write_log (LogPlaceError s msg) w1)
  | Ack =>
      Ok (true,
          with_glob (set_current_order_id (Some order_id))
            (set_acked (order_id :: acked w1) (write_log (LogPlaced s) w1)))
  | Throws => Ok (false, write_log LogPlaceException w1)
  end.

(** The scaling happens inside the [try] here, so its exceptions are
    swallowed. *)
Definition close_long_position
    (r : reply) (position_size current_mid_price : pyfloat) (order_id : Z)
    (w : world) : bool * world :=
  let sell_price := mul current_mid_price (add (Fin 1) (Fin SPREAD)) in
  let w0 := write_log (LogClosing position_size sell_price) w in
  match
    (b <- scaled (abs position_size) AMOUNT_TICK_SIZE ;;
     p <- scaled sell_price PRICE_TICK_SIZE ;;
     Ok (b, p))
  with
  | Raise _ => (false, write_log LogCloseException w0)
  | Ok (b, p) =>
      let w1 := send (CreateOrder order_id b p true true) w0 in
      match r with
      | Err msg => (false, write_log (LogCloseError msg) w1)
      | Ack =>
          (true,
           with_glob (set_current_order_id (Some order_id))
             (set_acked (order_id :: acked w1)
                (write_log LogClosePlaced w1)))
      | Throws => (false, write_log LogCloseException w1)
      end
  end.

End Orders.

(** ** The control loop *)

(** A message handed to a stream handler while the main task is suspended. *)
Inductive stream_msg : Type :=
| UserStats (stats : json)
| AccountAll (data : json).

(** Where the main task stands.  [Quoted], [Sizing], [Waiting], [TimedOut] and
    [Reconciled] carry the locals of the current iteration of
    [market_making_loop]. *)
Inductive pc : Type :=
| Boot                                       (* main: before the clean-slate cancel *)
| Starting                                   (* main: waiting for the first snapshots *)
| Closing                                    (* main: waiting for the startup close *)
| Top                                        (* head of the while loop *)
| Quoted (mid price : pyfloat) (changed : bool)   (* line 543 *)
| Sizing (mid price : pyfloat)               (* line 548 *)
| Waiting (mid : pyfloat)                    (* line 577, about to sleep *)
| TimedOut (mid : pyfloat)                   (* line 579 *)
| Reconciled (mid : pyfloat)                 (* line 585 *)
| Stopped.

Definition running (p : pc) : bool :=
  match p with
  | Boot | Stopped => false
  | _ => true
  end.

(** [last_mid_price is None or abs(mid - last) / last > 0.001] *)
Definition price_changed (last : option pyfloat) (mid : pyfloat) : res bool :=
  match last with
  | None => Ok true
  | Some l =>
      d <- div (abs (sub mid l)) l ;;
      Ok (gtb d (Fin 0.001))
  end.

(** [int(time.time() * 1_000_000) % 1_000_000] *)
Definition fresh_order_id (micros : Z) : Z := (micros mod 1000000)%Z.

Section Loop.

Variable float_of_str : string -> option pyfloat.
Variable ACCOUNT_INDEX : Z.
Variable market_key : string.
Variable PARAMS_DIR : string.
Variable MARKET_SYMBOL : string.
Variable REQUIRE_PARAMS : bool.
Variable USE_DYNAMIC_SIZING : bool.
Variable AMOUNT_TICK_SIZE : Q.
Variable PRICE_TICK_SIZE : Q.
Variable CLOSE_LONG_ON_STARTUP : bool.

(** The subscriber tasks call the handlers with [ACCOUNT_INDEX] and catch
    whatever escapes them. *)
Definition deliver (m : stream_msg) (w : world) : world :=
  match m with
  | UserStats stats =>
      match on_user_stats_update float_of_str ACCOUNT_INDEX
              ACCOUNT_INDEX stats (glob w) with
      | Ok g' => with_glob (fun _ => g') w
      | Raise _ => w
      end
  | AccountAll data =>
      with_glob
        (on_account_all_update float_of_str ACCOUNT_INDEX market_key
           ACCOUNT_INDEX data) w
  end.

(** main, lines 659-675: the clean-slate cancel; a failure returns before
    the [try], so no cleanup runs. *)
Definition boot (r : reply) (w : world) : pc * world :=
  let w1 := send CancelAllOrders w in
  match r with
  | Ack => (Starting, set_acked [] w1)
  | _ => (Stopped, w1)
  end.

(** [if mid:] on the result of [get_current_mid_price()] *)
Definition usable_mid (mid : option pyfloat) : option pyfloat :=
  match mid with
  | Some m => if truthy m then Some m else None
  | None => None
  end.

(** main, lines 697-738, once the three snapshots have arrived. *)
Definition start_trading
    (mid : option pyfloat) (micros : Z) (r : reply) (w : world) : pc * world :=
  let position := current_position_size (glob w) in
  if CLOSE_LONG_ON_STARTUP then
    if gtb position (Fin 0) then
      match usable_mid mid with
      | Some m =>
          let (ok, w1) :=
            close_long_position AMOUNT_TICK_SIZE PRICE_TICK_SIZE r
              position m (fresh_order_id micros) w in
          if ok then
            (Closing,
             with_glob (fun g => set_last_mid_price (Some m)
                                   (set_order_side Sell g)) w1)
          else (Top, w1)
      | None => (Top, w)
      end
    else (Top, w)
  else if gtb position (Fin 0) then
    match usable_mid mid with
    | Some m =>
        if ltb (mul position m) (Fin 15)
        then (Top, with_glob (set_order_side Buy) w)
        else (Top, with_glob (set_order_side Sell) w)
    | None => (Top, with_glob (set_order_side Sell) w)
    end
  else (Top, w).

(** The [finally] block of main. *)
Definition cleanup (r : reply) (w : world) : world :=
  match current_order_id (glob w) with
  | Some id => snd (cancel_order r id w)
  | None => w
  end.

(** Lines 515-541: health check, mid price, price-change flag and target
    price.  Every [continue] and every exception lead back to [Top]. *)
Definition begin_cycle
    (healthy restarted : bool) (book_mid : option pyfloat) (now : Q)
    (fs : string -> file_read) (w : world) : pc * world :=
  if negb healthy && negb restarted then (Top, w)
  else
    match book_mid with
    | None => (Top, w)
    | Some current_mid_price =>
        match price_changed (last_mid_price (glob w)) current_mid_price with
        | Raise _ => (Top, w)
        | Ok changed =>
            let (order_price, g') :=
              calculate_order_price float_of_str PARAMS_DIR MARKET_SYMBOL
                REQUIRE_PARAMS now fs current_mid_price
                (order_side (glob w)) (glob w) in
            let w' := with_glob (fun _ => g') w in
            match order_price with
            | Ok (Some price) => (Quoted current_mid_price price changed, w')
            | Ok None => (Top, w')
            | Raise _ => (Top, w')
            end
        end
    end.

(** Lines 543-546: cancel the resting order when the price has moved. *)
Definition requote (r : reply) (changed : bool) (w : world) : world :=
  match current_order_id (glob w) with
  | Some id => if changed then snd (cancel_order r id w) else w
  | None => w
  end.

(** Lines 550-561: the size of the next order. *)
Definition order_size (mid : pyfloat) (g : globals) : res pyfloat :=
  match order_side g with
  | Buy => calculate_dynamic_base_amount USE_DYNAMIC_SIZING (Some mid) g
  | Sell =>
      if gtb (current_position_size g) (Fin 0) then
        let position_value_usd := mul (current_position_size g) mid in
        if geb position_value_usd (Fin 15)
        then Ok (current_position_size g)
        else Ok (Fin 0)
      else Ok (Fin 0)
  end.

(** Lines 548-573. *)
Definition place_phase
    (micros : Z) (r : reply) (mid price : pyfloat) (w : world) : pc * world :=
  match current_order_id (glob w) with
  | Some _ => (Waiting mid, w)
  | None =>
      let order_id := fresh_order_id micros in
      match order_size mid (glob w) with
      | Raise _ => (Top, w)
      | Ok base_amt =>
          if gtb base_amt (Fin 0) then
            let w1 := with_glob (set_last_order_base_amount base_amt) w in
            match place_order AMOUNT_TICK_SIZE PRICE_TICK_SIZE r
                    (order_side (glob w1)) price order_id base_amt w1 with
            | Raise _ => (Top, w1)
            | Ok (false, w2) => (Top, w2)
            | Ok (true, w2) =>
                (Waiting mid, with_glob (set_last_mid_price (Some mid)) w2)
            end
          else (Waiting mid, w)
      end
  end.

(** Lines 579-581: the time-based cancel. *)
Definition timeout_cancel (r : reply) (w : world) : world :=
  match current_order_id (glob w) with
  | Some id => snd (cancel_order r id w)
  | None => w
  end.

(** Lines 585-597: the side for the next cycle, from the position the
    account stream last reported. *)
Definition reconcile_side (mid : pyfloat) (g : globals) : globals :=
  let position := current_position_size g in
  let position_value_usd :=
    if truthy mid then mul position mid else Fin 0 in
  match order_side g with
  | Buy =>
      if gtb position (Fin 0) then set_order_side Sell g else g
  | Sell =>
      if ltb (abs position) (Fin 1e-9) then
        set_last_order_base_amount (Fin 0) (set_order_side Buy g)
      else if gtb position (Fin 0) && ltb position_value_usd (Fin 15) then
        set_order_side Buy g
      else g
  end.

(** One move of the main task or one delivery to a stream handler.  The
    arguments of a constructor that are not part of the source state are
    what the outside provides at that point: transport replies, the clock,
    the order book and the files.  Handlers run only while the main task is
    suspended; deliveries are allowed at every control point, which only
    adds behaviours. *)
Inductive step : pc * world -> pc * world -> Prop :=
| step_boot r w :
    step (Boot, w) (boot r w)
| step_start mid micros r w :
    step (Starting, w) (start_trading mid micros r w)
| step_closed w :
    ltb (abs (current_position_size (glob w))) (Fin 1e-9) = true ->
    step (Closing, w) (Top, w)
| step_begin healthy restarted book_mid now fs w :
    step (Top, w) (begin_cycle healthy restarted book_mid now fs w)
| step_requote r mid price changed w :
    step (Quoted mid price changed, w) (Sizing mid price, requote r changed w)
| step_place micros r mid price w :
    step (Sizing mid price, w) (place_phase micros r mid price w)
| step_sleep mid w :
    step (Waiting mid, w) (TimedOut mid, w)
| step_timeout r mid w :
    step (TimedOut mid, w) (Reconciled mid, timeout_cancel r w)
| step_reconcile mid w :
    step (Reconciled mid, w) (Top, with_glob (reconcile_side mid) w)
| step_stream m p w :
    running p = true ->
    step (p, w) (p, deliver m w)
| step_shutdown r p w :
    running p = true ->
    step (p, w) (Stopped, cleanup r w).

Inductive reachable : pc * world -> Prop :=
| reach_init : reachable (Boot, initial_world)
| reach_step c c' : reachable c -> step c c' -> reachable c'.

End Loop.

(** The orders the client believes to be resting, read off the program's own
    record. *)
Definition recorded (g : globals) : list Z :=
  match current_order_id g with
  | Some id => [id]
  | None => []
  end.

(** ** Vocabulary for the statements about quote parameters *)

(** The first candidate that exists: missing files are passed over. *)
Fixpoint first_existing (reads : list file_read) : option file_read :=
  match reads with
  | [] => None
  | FileNotFound :: rest => first_existing rest
  | f :: _ => Some f
  end.

(** The [limit_orders] object of a parameter file, when it has one. *)
Definition limit_orders_of (data : json) : option (list (string * json)) :=
  match data with
  | JObj kv =>
      match dict_get kv "limit_orders" with
      | Some (JObj lo) => Some lo
      | _ => None
      end
  | _ => None
  end.

(** [lo.get(key)] *)
Definition offset_of (lo : list (string * json)) (key : string) : json :=
  match dict_get lo key with
  | Some v => v
  | None => JNull
  end.

Section ParameterFiles.

Variable float_of_str : string -> option pyfloat.

(** An offset that is non-numeric, NaN, infinite or negative. *)
Definition bad_offset (v : json) : Prop :=
  match py_float float_of_str v with
  | Raise _ => True
  | Ok (Fin q) => q < 0
  | Ok _ => True
  end.

(** File contents that are not valid JSON, lack the [limit_orders] object, or
    carry a bad offset. *)
Inductive invalid_contents : file_read -> Prop :=
| invalid_json :
    invalid_contents InvalidJson
| invalid_structure data :
    limit_orders_of data = None ->
    invalid_contents (Loaded data)
| invalid_offset data lo :
    limit_orders_of data = Some lo ->
    bad_offset (offset_of lo "delta_a") \/ bad_offset (offset_of lo "delta_b") ->
    invalid_contents (Loaded data).

(** Contents the loader accepts. *)
Definition valid_params (data : json) : bool :=
  json_truthy data &&
  match validate_params float_of_str data with
  | Ok true => true
  | _ => false
  end.

Definition valid_file (f : file_read) : bool :=
  match f with
  | Loaded data => valid_params data
  | _ => false
  end.

(** A cache that is empty or holds contents that passed validation. *)
Definition cache_ok (g : globals) : Prop :=
  match avellaneda_params g with
  | Some data => valid_params data = true
  | None => True
  end.

(** What a reload yields once the cache is not served. *)
Definition reload (now : Q) (first : option file_read) (g : globals)
  : bool * globals :=
  match first with
  | Some (Loaded data) =>
      if valid_params data
      then (true,
            set_last_avellaneda_update now
              (set_avellaneda_params (Some data)
                 (set_avellaneda_params None g)))
      else (false, set_avellaneda_params None g)
  | _ => (false, set_avellaneda_params None g)
  end.

End ParameterFiles.

(** ** Vocabulary for the statements about the order record *)

(** What a step did to the order record and the transport. *)
Inductive effect (w w' : world) : Prop :=
| eff_quiet :
    requests w' = requests w ->
    acked w' = acked w ->
    current_order_id (glob w') = current_order_id (glob w) ->
    effect w w'
| eff_cancelled :
    requests w' = (requests w ++ [CancelAllOrders])%list ->
    acked w' = [] ->
    current_order_id (glob w') = None ->
    effect w w'
| eff_cancel_failed :
    requests w' = (requests w ++ [CancelAllOrders])%list ->
    acked w' = acked w ->
    current_order_id (glob w') = current_order_id (glob w) ->
    effect w w'
| eff_placed id b p a ro :
    requests w' = (requests w ++ [CreateOrder id b p a ro])%list ->
    acked w' = id :: acked w ->
    current_order_id (glob w') = Some id ->
    effect w w'
| eff_place_failed id b p a ro :
    requests w' = (requests w ++ [CreateOrder id b p a ro])%list ->
    acked w' = acked w ->
    current_order_id (glob w') = current_order_id (glob w) ->
    effect w w'.

(** The step sent an order to the exchange. *)
Definition places (w w' : world) : Prop :=
  exists id b p a ro,
    requests w' = (requests w ++ [CreateOrder id b p a ro])%list.

(** The acknowledged orders are exactly the recorded one, and nothing is
    recorded before trading starts. *)
Definition order_invariant (c : pc * world) : Prop :=
  acked (snd c) = recorded (glob (snd c)) /\
  (fst c = Boot \/ fst c = Starting -> current_order_id (glob (snd c)) = None).

(** ** Sample inputs used by the examples *)

(** A [float()] that accepts no string. *)
Definition no_str_float : string -> option pyfloat := fun _ => None.

(** [{"limit_orders": {"delta_a": 0.3, "delta_b": 0.2}}] *)
Definition sample_params : json :=
  JObj [("limit_orders",
         JObj [("delta_a", JNum (Fin 0.3)); ("delta_b", JNum (Fin 0.2))])].

Definition fs_good : string -> file_read := fun _ => Loaded sample_params.
Definition fs_missing : string -> file_read := fun _ => FileNotFound.
Definition fs_broken : string -> file_read := fun _ => InvalidJson.

(** The file under [conf/] is not JSON; every other path holds
    [sample_params]. *)
Definition fs_first_broken : string -> file_read :=
  fun p =>
    if String.eqb p "conf/avellaneda_parameters_PAXG.json"
    then InvalidJson
    else Loaded sample_params.

(** The globals after [sample_params] was loaded at time 0. *)
Definition cached_globals : globals :=
  snd (load_avellaneda_parameters no_str_float "params" "PAXG" 0 fs_good
         initial_globals).

(** One order, id 1, resting since it was quoted at mid 100 on the Buy
    side. *)
Definition resting_world : world :=
  mkWorld
    (set_last_mid_price (Some (Fin 100))
       (set_current_order_id (Some 1%Z) initial_globals))
    [1%Z] [] [].

(** A run from boot to the first resting order: clean-slate cancel
    acknowledged, no position at startup, mid 100 with no parameter file, and
    the Buy order acknowledged. *)
Definition run_started : world :=
  snd (start_trading 0.0001 0.01 false None 0 Ack
         (snd (boot Ack initial_world))).

Definition run_quote : pyfloat := mul (Fin 100) (sub (Fin 1) (Fin SPREAD)).

Definition run_quoted : world :=
  snd (begin_cycle no_str_float "params" "PAXG" false true true
         (Some (Fin 100)) 0 fs_missing run_started).

Definition run_placed : pc * world :=
  place_phase true 0.0001 0.01 1700000000123456 Ack (Fin 100) run_quote
    (requote Ack true run_quoted).




(** ** The order-book cache *)

(** The globals written by [on_order_book_update]. *)
Record market : Type := mkMarket {
  latest_order_book : option json;
  order_book_received : bool;
  ws_connection_healthy : bool;
  last_order_book_update : Q;
  current_mid_price_cached : option pyfloat
}.

Definition initial_market : market := mkMarket None false false 0 None.

Definition set_ws_connection_healthy (v : bool) (m : market) : market :=
  mkMarket (latest_order_book m) (order_book_received m) v
    (last_order_book_update m) (current_mid_price_cached m).

(** In the order-book functions any exception has the same consequence, so a
    computation that raises is [None]. *)
Definition attempt {A : Type} (r : res A) : option A :=
  match r with
  | Ok a => Some a
  | Raise _ => None
  end.

(** [v[0]] *)
Definition py_first (v : json) : option json :=
  match v with
  | JArr (x :: _) => Some x
  | JStr (String c _) => Some (JStr (String c EmptyString))
  | _ => None
  end.

(** The state of the background stream task, as [check_websocket_health]
    looks at it. *)
Inductive task_state : Type :=
| NoTask
| TaskRunning
| TaskDone (failed : bool).

(** What [get_current_mid_price] gives its caller. *)
Inductive mid_reading : Type :=
| Mid (m : pyfloat)
| NoMid
| MidRaises.

(** [order_book.get(key, [])] on the items of a dict. *)
Definition book_side (kv : list (string * json)) (key : string) : json :=
  match dict_get kv key with
  | Some v => v
  | None => JArr []
  end.

Section OrderBook.

Variable float_of_str : string -> option pyfloat.
Variable MARKET_ID : Z.

(** [float(levels[0]['price'])] *)
Definition best_price (levels : json) : option pyfloat :=
  match py_first levels with
  | Some level =>
      attempt (p <- py_item level "price" ;; py_float float_of_str p)
  | None => None
  end.

(** [(best_bid + best_ask) / 2] *)
Definition mid_of (best_bid best_ask : pyfloat) : option pyfloat :=
  attempt (div (add best_bid best_ask) (Fin 2)).

(** The body of the [try] in [on_order_book_update] for the configured
    market: [None] when it raises, otherwise the new mid if one was
    computed. *)
Definition read_book (order_book : json) : option (option pyfloat) :=
  match attempt (py_get order_book "bids" (JArr [])) with
  | None => None
  | Some bids =>
      match attempt (py_get order_book "asks" (JArr [])) with
      | None => None
      | Some asks =>
          if json_truthy bids && json_truthy asks then
            match best_price bids with
            | None => None
            | Some best_bid =>
                match best_price asks with
                | None => None
                | Some best_ask =>
                    match mid_of best_bid best_ask with
                    | None => None
                    | Some mid => Some (Some mid)
                    end
                end
            end
          else Some None
      end
  end.

Definition on_order_book_update
    (now : Q) (market_id : Z) (order_book : json) (m : market) : market :=
  if Z.eqb market_id MARKET_ID then
    match read_book order_book with
    | Some new_mid =>
        mkMarket (Some order_book) true true now
          (match new_mid with
           | Some mid => Some mid
           | None => current_mid_price_cached m
           end)
    | None => set_ws_connection_healthy false m
    end
  else m.

(** Lines 313-319: the mid recomputed from the raw cached book. *)
Definition book_mid (book : option json) : mid_reading :=
  match book with
  | None => NoMid
  | Some order_book =>
      match attempt (py_get order_book "bids" (JArr [])) with
      | None => MidRaises
      | Some bids =>
          match attempt (py_get order_book "asks" (JArr [])) with
          | None => MidRaises
          | Some asks =>
              if negb (json_truthy bids) || negb (json_truthy asks) then NoMid
              else
                match best_price bids with
                | None => MidRaises
                | Some best_bid =>
                    match best_price asks with
                    | None => MidRaises
                    | Some best_ask =>
                        match mid_of best_bid best_ask with
                        | None => MidRaises
                        | Some mid => Mid mid
                        end
                    end
                end
          end
      end
  end.

Definition get_current_mid_price (now : Q) (m : market) : mid_reading :=
  match current_mid_price_cached m with
  | Some cached =>
      if Qlt_bool (now - last_order_book_update m) 10 then Mid cached
      else book_mid (latest_order_book m)
  | None => book_mid (latest_order_book m)
  end.

Definition check_websocket_health
    (now : Q) (ws_task : task_state) (m : market) : bool * market :=
  if Qlt_bool 30 (now - last_order_book_update m)
  then (false, set_ws_connection_healthy false m)
  else
    match ws_task with
    | TaskDone _ => (false, set_ws_connection_healthy false m)
    | _ => (ws_connection_healthy m, m)
    end.

End OrderBook.

(** ** Market metadata *)

(** One entry of the [order_books] response. *)
Record order_book_info : Type := mkInfo {
  ob_symbol : string;
  ob_market_id : Z;
  supported_price_decimals : Z;
  supported_size_decimals : Z
}.

(** [10 ** -d] *)
Definition tick_of_decimals (d : Z) : Q := Qpower 10 (- d).

Section MarketDetails.

(** [str.upper] is Python's. *)
Variable upper : string -> string.

Fixpoint find_market (symbol : string) (obs : list order_book_info)
  : option (Z * Q * Q) :=
  match obs with
  | [] => None
  | ob :: rest =>
      if String.eqb (upper (ob_symbol ob)) (upper symbol)
      then Some (ob_market_id ob,
                 tick_of_decimals (supported_price_decimals ob),
                 tick_of_decimals (supported_size_decimals ob))
      else find_market symbol rest
  end.

(** [response] is [None] when the API call raises. *)
Definition get_market_details
    (response : option (list order_book_info)) (symbol : string)
  : option (Z * Q * Q) :=
  match response with
  | Some obs => find_market symbol obs
  | None => None
  end.

End MarketDetails.

(** ** The trade ledger *)

(** [deque(maxlen=n).append(x)] *)
Definition deque_append {A : Type} (maxlen : nat) (d : list A) (x : A)
  : list A :=
  if Nat.ltb (List.length d) maxlen then (d ++ [x])%list
  else
    match maxlen with
    | O => d
    | S _ => (tl d ++ [x])%list
    end.

(** What iterating over a decoded value yields. *)
Definition py_iter (v : json) : res (list json) :=
  match v with
  | JArr l => Ok l
  | JObj kv => Ok (map (fun kx => JStr (fst kx)) kv)
  | JStr s => Ok (map (fun c => JStr (String c EmptyString)) (list_ascii_of_string s))
  | _ => Raise TypeError
  end.

(** [[trade for trades in values for trade in trades]] *)
Fixpoint flatten_trades (values : list json) : res (list json) :=
  match values with
  | [] => Ok []
  | trades :: rest =>
      here <- py_iter trades ;;
      there <- flatten_trades rest ;;
      Ok (here ++ there)%list
  end.

Section Ledger.

(** Python's [==] on decoded trades and [list.sort] with the timestamp key are
    the interpreter's. *)
Variable py_eq : json -> json -> bool.
Variable sort_by_timestamp_desc : list json -> res (list json).

(** [trade in recent_trades] *)
Definition in_ledger (trade : json) (recent : list json) : bool :=
  existsb (fun item => py_eq item trade) recent.

(** Lines 267-270: the loop over [reversed(all_new_trades)].  A new trade is
    appended and then logged with [trade.get], which raises on a value that
    is not a dict; the loop then stops with the ledger as it is. *)
Fixpoint merge_trades (oldest_first : list json) (recent : list json)
  : list json * option exn :=
  match oldest_first with
  | [] => (recent, None)
  | trade :: rest =>
      if in_ledger trade recent then merge_trades rest recent
      else
        let recent' := deque_append 20 recent trade in
        if is_dict trade then merge_trades rest recent'
        else (recent', Some AttributeError)
  end.

(** Lines 263-270 of [on_account_all_update] for the tracked account: the
    ledger afterwards and the exception raised, if any. *)
Definition update_recent_trades (data : json) (recent : list json)
  : list json * option exn :=
  match py_get data "trades" (JObj []) with
  | Raise e => (recent, Some e)
  | Ok new_trades_by_market =>
      if json_truthy new_trades_by_market then
        match new_trades_by_market with
        | JObj kv =>
            match (all_new_trades <- flatten_trades (map snd kv) ;;
                   sort_by_timestamp_desc all_new_trades) with
            | Raise e => (recent, Some e)
            | Ok sorted => merge_trades (rev sorted) recent
            end
        | _ => (recent, Some AttributeError)
        end
      else (recent, None)
  end.

End Ledger.

(** ** Vocabulary for the statements about requests and the ledger *)

(** An order request with a client id below one million whose reduce-only
    flag equals its ask flag. *)
Definition good_request (rq : request) : Prop :=
  match rq with
  | CreateOrder id _ _ is_ask reduce_only =>
      (0 <= id < 1000000)%Z /\ reduce_only = is_ask
  | CancelAllOrders => True
  end.

(** No entry of the ledger equals a later one. *)
Definition distinct_trades (py_eq : json -> json -> bool) (recent : list json)
  : Prop :=
  ForallOrdPairs (fun earlier later => py_eq earlier later = false) recent.

(** [data.get("positions", {})] on the items of a dict. *)
Definition positions_of (kv : list (string * json)) : json :=
  match dict_get kv "positions" with
  | Some v => v
  | None => JObj []
  end.

(** A float that is the finite number [x]. *)
Definition is_number (f : pyfloat) (x : Q) : Prop :=
  match f with
  | Fin q => q == x
  | _ => False
  end.

(** What a step may do to the requests, the recorded id and the last quoted
    mid. *)
Definition step_summary (w w' : world) : Prop :=
  (exists l,
      requests w' = (requests w ++ l)%list /\ Forall good_request l) /\
  (last_mid_price (glob w') = last_mid_price (glob w) \/
   exists m, last_mid_price (glob w') = Some m) /\
  (current_order_id (glob w') = current_order_id (glob w) \/
   current_order_id (glob w') = None \/
   exists m, last_mid_price (glob w') = Some m).

(** ** Sample books, account updates and trades *)

(** Best bid 99, best ask 101. *)
Definition sample_book_items : list (string * json) :=
  [("bids", JArr [JObj [("price", JNum (Fin 99))]]);
   ("asks", JArr [JObj [("price", JNum (Fin 101))]])].

(** No bids. *)
Definition bidless_book_items : list (string * json) :=
  [("bids", JArr []);
   ("asks", JArr [JObj [("price", JNum (Fin 101))]])].

(** The best bid has no price. *)
Definition unpriced_book : json :=
  JObj [("bids", JArr [JObj [("size", JNum (Fin 1))]]);
        ("asks", JArr [JObj [("price", JNum (Fin 101))]])].

(** The cache after [sample_book_items] arrived at time 20 for market 48. *)
Definition sample_market : market :=
  on_order_book_update no_str_float 48 20 48 (JObj sample_book_items)
    initial_market.

(** A position of 3 in market 48. *)
Definition sample_account_items : list (string * json) :=
  [("positions", JObj [("48", JObj [("position", JNum (Fin 3))])])].

(** On the Sell side with a position of 5. *)
Definition selling_globals : globals :=
  set_order_side Sell (set_current_position_size (Fin 5) initial_globals).


Definition holding_world : world :=
  mkWorld (set_current_position_size (Fin 5) initial_globals) [] [] [].

(** An equality and a sort for the examples: trades are equal when their
    [trade_id] strings are, and the batch is taken as already sorted. *)
Definition same_trade_id (a b : json) : bool :=
  match py_item a "trade_id", py_item b "trade_id" with
  | Ok (JStr x), Ok (JStr y) => String.eqb x y
  | _, _ => false
  end.

Definition presorted (l : list json) : res (list json) := Ok l.

Definition sample_trades : json :=
  JObj [("trades",
         JObj [("48", JArr [JObj [("trade_id", JStr "t1")];
                            JObj [("trade_id", JStr "t2")]])])].

(** * Properties *)

(** ** Comparisons *)

Lemma Qlt_bool_iff (a b : Q) : Qlt_bool a b = true <-> a < b.
Proof.
  unfold Qlt_bool. rewrite negb_true_iff. split; intro H.
  - apply Qnot_le_lt. intro Hle. apply Qle_bool_iff in Hle. congruence.
  - destruct (Qle_bool b a) eqn:E; [|reflexivity].
    apply Qle_bool_iff in E. exfalso. apply (Qlt_not_le _ _ H E).
Qed.

Lemma Qlt_bool_false_iff (a b : Q) : Qlt_bool a b = false <-> b <= a.
Proof.
  unfold Qlt_bool. rewrite negb_false_iff. apply Qle_bool_iff.
Qed.

Lemma Qle_bool_false_iff (a b : Q) : Qle_bool a b = false <-> b < a.
Proof.
  rewrite <- Qlt_bool_iff. unfold Qlt_bool.
  destruct (Qle_bool a b); simpl; split; congruence.
Qed.

Lemma Qeq_bool_false_iff (a b : Q) : Qeq_bool a b = false <-> ~ a == b.
Proof.
  rewrite <- Qeq_bool_iff. destruct (Qeq_bool a b); split; congruence.
Qed.

(** Turns the boolean tests on rationals in the context and the goal into
    propositions. *)
Ltac qprop :=
  repeat match goal with
    | H : Qlt_bool _ _ = true |- _ => apply Qlt_bool_iff in H
    | H : Qlt_bool _ _ = false |- _ => apply Qlt_bool_false_iff in H
    | H : Qle_bool _ _ = true |- _ => apply Qle_bool_iff in H
    | H : Qle_bool _ _ = false |- _ => apply Qle_bool_false_iff in H
    | H : Qeq_bool _ _ = true |- _ => apply Qeq_bool_iff in H
    | H : Qeq_bool _ _ = false |- _ => apply Qeq_bool_false_iff in H
    end.

(** ** Capital updates *)

Section HandlerFacts.

Variable float_of_str : string -> option pyfloat.
Variable ACCOUNT_INDEX : Z.
Variable market_key : string.

Local Abbreviation to_float := (py_float float_of_str).
Local Abbreviation accepted := (both_positive float_of_str).
Local Abbreviation overflowing := (overflows float_of_str).
Local Abbreviation stats_update :=
  (on_user_stats_update float_of_str ACCOUNT_INDEX ACCOUNT_INDEX).

(** [float()] fails with one of three exceptions; the handlers catch the
    first two. *)
Lemma py_float_raises (f : string -> option pyfloat) (v : json) (e : exn) :
  py_float f v = Raise e ->
  e = TypeError \/ e = ValueError \/ e = OverflowError.
Proof.
  destruct v as [|b|x|z|s|l|kv]; cbn [py_float]; try congruence;
    try (intros [= <-]; auto).
  - destruct (Z.ltb (Z.abs z) FLOAT_OVERFLOW);
      [congruence | intros [= <-]; auto].
  - destruct (f s); [congruence | intros [= <-]; auto].
Qed.

(** What the handler does with a dict, by the outcome of the two
    conversions. *)
Lemma on_user_stats_update_cases (kv : list (string * json)) (g : globals) :
  stats_update (JObj kv) g =
  match to_float (reported kv "available_balance") with
  | Ok x =>
      match to_float (reported kv "portfolio_value") with
      | Ok y =>
          Ok (if gtb x (Fin 0) && gtb y (Fin 0) then set_capital x y g else g)
      | Raise OverflowError => Raise OverflowError
      | Raise _ => Ok g
      end
  | Raise OverflowError => Raise OverflowError
  | Raise _ => Ok g
  end.
Proof.
  unfold on_user_stats_update, py_get. rewrite Z.eqb_refl.
  fold (reported kv "available_balance") (reported kv "portfolio_value").
  cbn [bind].
  destruct (to_float (reported kv "available_balance")) as [x|e] eqn:Ex;
    cbn [bind].
  - destruct (to_float (reported kv "portfolio_value")) as [y|e] eqn:Ey;
      cbn [bind].
    + destruct (gtb x (Fin 0) && gtb y (Fin 0)); reflexivity.
    + destruct (py_float_raises _ _ _ Ey) as [-> | [-> | ->]]; reflexivity.
  - destruct (py_float_raises _ _ _ Ex) as [-> | [-> | ->]]; reflexivity.
Qed.

(** A stats payload that is not a dict has no [get]. *)
Lemma on_user_stats_update_not_dict (stats : json) (g : globals) :
  is_dict stats = false -> stats_update stats g = Raise AttributeError.
Proof.
  intro H. unfold on_user_stats_update. rewrite Z.eqb_refl.
  destruct stats; try discriminate; reflexivity.
Qed.

(** C5: for an update for the tracked account,
    - when both reported values convert to numbers that are strictly
      positive, the handler returns and the cached capital and portfolio value
      are the reported numbers, the account is marked as received, and no
      other global changes;
    - when the handler returns and the values are not both such numbers, the
      globals are exactly as before, so the cache changes only in the first
      case;
    - the handler does not always return: [AttributeError] escapes it when the
      payload is not a dict, and [OverflowError] when a reported integer is
      beyond the float range (the first value, or the second after the first
      has converted), and nothing else does; a [ValueError] or [TypeError]
      of a conversion is caught;
    - an escaping exception is caught by the subscriber task, which leaves
      the whole state as it was. *)
Theorem capital_update_iff_both_positive (stats : json) (g : globals) :
  (forall kv x y,
     stats = JObj kv -> accepted kv x y ->
     exists g',
       stats_update stats g = Ok g' /\
       available_capital g' = Some x /\
       portfolio_value g' = Some y /\
       account_state_received g' = true /\
       same_order_state g g') /\
  (forall g',
     stats_update stats g = Ok g' ->
     (forall kv, stats = JObj kv -> ~ exists x y, accepted kv x y) ->
     g' = g) /\
  (forall g',
     stats_update stats g = Ok g' -> g' <> g ->
     exists kv x y, stats = JObj kv /\ accepted kv x y) /\
  (forall e,
     stats_update stats g = Raise e <->
     (is_dict stats = false /\ e = AttributeError) \/
     (e = OverflowError /\
      exists kv,
        stats = JObj kv /\
        (overflowing kv "available_balance" \/
         (exists x, to_float (reported kv "available_balance") = Ok x) /\
         overflowing kv "portfolio_value"))) /\
  (forall e w,
     glob w = g -> stats_update stats g = Raise e ->
     deliver float_of_str ACCOUNT_INDEX market_key (UserStats stats) w = w).
Proof.
  assert (Hlast : forall e w,
     glob w = g -> stats_update stats g = Raise e ->
     deliver float_of_str ACCOUNT_INDEX market_key (UserStats stats) w = w).
  { intros e w <- H. unfold deliver. rewrite H. reflexivity. }
  destruct (is_dict stats) eqn:Hd.
  2:{ pose proof (on_user_stats_update_not_dict stats g Hd) as Hr.
      split; [|split; [|split; [|split]]]; [| | | |exact Hlast].
      - intros kv x y ->. discriminate.
      - intros g' H. congruence.
      - intros g' H. congruence.
      - intro e. rewrite Hr. split.
        + intros [= <-]. left. auto.
        + intros [(_ & ->) | (_ & kv & -> & _)];
            [reflexivity | discriminate]. }
  destruct stats as [| | | | | |kv]; try discriminate. clear Hd.
  split; [|split; [|split; [|split]]]; [| | | |exact Hlast]; clear Hlast;
    rewrite on_user_stats_update_cases; unfold both_positive, overflows.
  - intros kv' x y [= <-] (Hx & Hy & Gx & Gy).
    rewrite Hx, Hy, Gx, Gy. cbn [andb].
    eexists; split; [reflexivity|].
    cbn. unfold same_order_state. cbn. repeat split.
  - intros g' H Hno.
    destruct (to_float (reported kv "available_balance"))
      as [x|[]] eqn:Ex; try congruence;
      destruct (to_float (reported kv "portfolio_value"))
        as [y|[]] eqn:Ey; try congruence.
    destruct (gtb x (Fin 0)) eqn:Gx; destruct (gtb y (Fin 0)) eqn:Gy;
      cbn [andb] in H; try congruence.
    exfalso. apply (Hno kv eq_refl). exists x, y. auto.
  - intros g' H Hne. exists kv.
    destruct (to_float (reported kv "available_balance"))
      as [x|[]] eqn:Ex; try congruence;
      destruct (to_float (reported kv "portfolio_value"))
        as [y|[]] eqn:Ey; try congruence.
    destruct (gtb x (Fin 0)) eqn:Gx; destruct (gtb y (Fin 0)) eqn:Gy;
      cbn [andb] in H; try congruence.
    exists x, y. auto.
  - intro e. split.
    + intro H. right.
      destruct (to_float (reported kv "available_balance"))
        as [x|[]] eqn:Ex; try discriminate;
        [ destruct (to_float (reported kv "portfolio_value"))
            as [y|[]] eqn:Ey; try discriminate | ];
        injection H as <-; (split; [reflexivity|]);
        exists kv; (split; [reflexivity|]).
      * right. split; [exists x; exact Ex | exact Ey].
      * left. exact Ex.
    + intros [(Hf & _) | (-> & kv' & [= <-] & Hov)]; [discriminate|].
      destruct Hov as [Ha | ((x & Hx) & Hp)].
      * rewrite Ha. reflexivity.
      * rewrite Hx, Hp. reflexivity.
Qed.

End HandlerFacts.

(** The specification's example: a negative balance leaves the cache as it
    was; so does a value that is not a number; two positive values are taken
    over. *)
Example capital_update_examples :
  on_user_stats_update no_str_float 7 7
    (JObj [("available_balance", JNum (Fin (-1)));
           ("portfolio_value", JNum (Fin 100))])
    initial_globals = Ok initial_globals /\
  on_user_stats_update no_str_float 7 7
    (JObj [("available_balance", JStr "n/a");
           ("portfolio_value", JNum (Fin 100))])
    initial_globals = Ok initial_globals /\
  on_user_stats_update no_str_float 7 7
    (JObj [("available_balance", JNum (Fin 250));
           ("portfolio_value", JNum (Fin 300))])
    initial_globals = Ok (set_capital (Fin 250) (Fin 300) initial_globals).
Proof. repeat split. Qed.

(** Two positive values reported to account 7 are taken over into the
    cache. *)
Lemma capital_taken_over_example :
  exists g',
    on_user_stats_update no_str_float 7 7
      (JObj [("available_balance", JNum (Fin 250));
             ("portfolio_value", JInt 300)])
      initial_globals = Ok g' /\
    available_capital g' = Some (Fin 250) /\
    portfolio_value g' = Some (Fin 300) /\
    account_state_received g' = true /\
    same_order_state initial_globals g'.
Proof.
  apply (proj1 (capital_update_iff_both_positive no_str_float 7 "48"
                  (JObj [("available_balance", JNum (Fin 250));
                         ("portfolio_value", JInt 300)])
                  initial_globals)
           [("available_balance", JNum (Fin 250));
            ("portfolio_value", JInt 300)]
           (Fin 250) (Fin 300) eq_refl).
  repeat split.
Defined.

(** The handler does not always return: an integer balance of [10**400], as
    [json.loads] reads it from the digits, makes [float] raise
    [OverflowError], and a payload that is not a dict, here [null] and a
    list, has no [get]; neither exception is among the two the handler
    catches. *)
Example exception_escapes_stats_handler :
  on_user_stats_update no_str_float 7 7
    (JObj [("available_balance", JInt (10 ^ 400));
           ("portfolio_value", JNum (Fin 100))])
    initial_globals = Raise OverflowError /\
  on_user_stats_update no_str_float 7 7
    (JObj [("available_balance", JNum (Fin 250));
           ("portfolio_value", JInt (- 10 ^ 400))])
    initial_globals = Raise OverflowError /\
  on_user_stats_update no_str_float 7 7 JNull initial_globals
  = Raise AttributeError /\
  on_user_stats_update no_str_float 7 7 (JArr [JNum (Fin 250)])
    initial_globals = Raise AttributeError.
Proof. repeat split. Qed.

(** ** Side flip at the reconciliation point *)

(** C1: after the timeout cancel, with the reconciled position [pos] and the
    iteration's mid price [mid]: on the Buy side the next side is Sell exactly
    when [pos > 0]; on the Sell side the next side is Buy exactly when
    [|pos| < 1e-9], or [pos > 0] and [pos * mid < 15]; otherwise the side is
    kept. *)
Theorem side_flip_decision (g : globals) (s : side) (pos mid : Q) :
  let g0 := set_order_side s (set_current_position_size (Fin pos) g) in
  let g' := reconcile_side (Fin mid) g0 in
  match s with
  | Buy =>
      (order_side g' = Sell <-> 0 < pos) /\
      (order_side g' = Buy <-> ~ 0 < pos)
  | Sell =>
      (order_side g' = Buy <->
         Qabs pos < 1e-9 \/ (0 < pos /\ pos * mid < 15)) /\
      (order_side g' = Sell <->
         ~ (Qabs pos < 1e-9 \/ (0 < pos /\ pos * mid < 15)))
  end.
Proof.
  cbv zeta. unfold reconcile_side. destruct s; cbn.
  - destruct (Qlt_bool 0 pos) eqn:E; cbn; qprop;
      intuition (congruence || lra).
  - destruct (Qlt_bool (Qabs pos) _) eqn:Ea; cbn.
    { qprop. intuition (congruence || lra). }
    destruct (Qlt_bool 0 pos) eqn:Ep; cbn.
    2:{ qprop. intuition (congruence || lra). }
    destruct (Qeq_bool mid 0) eqn:Em; cbn.
    + qprop. assert (pos * mid == 0) as Hz by (rewrite Em; ring).
      intuition (congruence || lra).
    + destruct (Qlt_bool (pos * mid) 15) eqn:Ev; cbn; qprop;
        intuition (congruence || lra).
Qed.

(** The three reconciliations of the specification's example. *)
Example side_flip_examples :
  order_side (reconcile_side (Fin 2)
     (set_order_side Sell (set_current_position_size (Fin 0) initial_globals)))
    = Buy /\
  order_side (reconcile_side (Fin 2)
     (set_order_side Sell (set_current_position_size (Fin 5) initial_globals)))
    = Buy /\
  order_side (reconcile_side (Fin 4)
     (set_order_side Sell (set_current_position_size (Fin 5) initial_globals)))
    = Sell.
Proof. repeat split; vm_compute; reflexivity. Qed.

(** ** Order size on the accumulating side *)

Lemma Qmax_floor (d : Q) :
  (if Qlt_bool d 0.001 then 0.001 else d) == Qmax d 0.001.
Proof.
  destruct (Qlt_bool d 0.001) eqn:E; qprop.
  - symmetry. apply Q.max_r. lra.
  - symmetry. apply Q.max_l. exact E.
Qed.

(** With capital and a mid price that are both positive the dynamic branch is
    taken. *)
Lemma dynamic_branch (g : globals) (cap mid : Q) :
  available_capital g = Some (Fin cap) -> 0 < cap -> 0 < mid ->
  calculate_dynamic_base_amount true (Some (Fin mid)) g =
  Ok (Fin (if Qlt_bool
                (cap * (1 + - SAFETY_MARGIN_PERCENT) * CAPITAL_USAGE_PERCENT / mid)
                0.001
           then 0.001
           else cap * (1 + - SAFETY_MARGIN_PERCENT) * CAPITAL_USAGE_PERCENT / mid)).
Proof.
  intros Hc Hcap Hmid. unfold calculate_dynamic_base_amount.
  rewrite Hc. cbn [negb leb gtb ltb truthy].
  assert (Qle_bool cap 0 = false) as -> by (apply Qle_bool_false_iff; exact Hcap).
  assert (Qeq_bool mid 0 = false) as E0
      by (apply Qeq_bool_false_iff; intro E; rewrite E in Hmid; lra).
  assert (Qlt_bool 0 mid = true) as -> by (apply Qlt_bool_iff; exact Hmid).
  rewrite E0. cbn [negb andb]. unfold div, mul, sub, add, neg. rewrite E0.
  cbn [bind]. unfold max, gtb, ltb.
  destruct (Qlt_bool _ 0.001); reflexivity.
Qed.

(** C7: for strictly positive capital and mid price the size is
    [max(capital * (1 - 0.01) * 0.99 / mid, 0.001)]; the static amount is
    returned when dynamic sizing is off, when the capital is unknown or not
    above zero, and when the mid price is missing or not above zero. *)
Theorem dynamic_size_formula :
  (forall (g : globals) (cap mid : Q),
      available_capital g = Some (Fin cap) -> 0 < cap -> 0 < mid ->
      exists r,
        calculate_dynamic_base_amount true (Some (Fin mid)) g = Ok (Fin r) /\
        r == Qmax (cap * (1 - 0.01) * 0.99 / mid) 0.001) /\
  (forall (dyn : bool) (g : globals) (mid : option pyfloat),
      dyn = false \/
      available_capital g = None \/
      (exists c, available_capital g = Some c /\ leb c (Fin 0) = true) \/
      mid = None \/
      (exists m, mid = Some m /\ gtb m (Fin 0) = false) ->
      calculate_dynamic_base_amount dyn mid g = Ok (Fin 0.047)).
Proof.
  split.
  - intros g cap mid Hc Hcap Hmid.
    rewrite (dynamic_branch g cap mid Hc Hcap Hmid).
    eexists; split; [reflexivity|].
    rewrite Qmax_floor. unfold SAFETY_MARGIN_PERCENT, CAPITAL_USAGE_PERCENT.
    apply Q.max_compat; [|reflexivity].
    assert (~ mid == 0) by lra. field. assumption.
  - intros dyn g mid H. unfold calculate_dynamic_base_amount, BASE_AMOUNT.
    destruct dyn; cbn [negb]; [|reflexivity].
    destruct (available_capital g) as [c|] eqn:Ec; [|reflexivity].
    destruct (leb c (Fin 0)) eqn:El; [reflexivity|].
    destruct mid as [m|]; [|reflexivity].
    destruct (gtb m (Fin 0)) eqn:Eg.
    + exfalso. destruct H as [H | [H | [(c' & H1 & H2) | [H | (m' & H1 & H2)]]]];
        congruence.
    + rewrite andb_false_r. reflexivity.
Qed.

(** The specification's example: capital 1000 at mid 100 gives 9.801 units. *)
Lemma dynamic_size_example :
  exists r,
    calculate_dynamic_base_amount true (Some (Fin 100))
      (set_capital (Fin 1000) (Fin 1000) initial_globals) = Ok (Fin r) /\
    r == 9.801.
Proof.
  destruct (proj1 dynamic_size_formula
              (set_capital (Fin 1000) (Fin 1000) initial_globals) 1000 100)
    as (r & Hr & Hq); [reflexivity | reflexivity | reflexivity |].
  exists r. split; [exact Hr|]. rewrite Hq. vm_compute. reflexivity.
Defined.







(** ** Cancelling *)

(** C9: the result of [cancel_order] and all of its effects (the request
    sent, which is a cancel-all; the globals; the acknowledged orders) are the
    same for any two order-id arguments; the argument shows only in the first
    log line.  An acknowledged cancel clears the recorded order id whatever
    id was named. *)
Theorem cancel_ignores_order_id (r : reply) (id1 id2 : Z) (w : world) :
  fst (cancel_order r id1 w) = fst (cancel_order r id2 w) /\
  glob (snd (cancel_order r id1 w)) = glob (snd (cancel_order r id2 w)) /\
  acked (snd (cancel_order r id1 w)) = acked (snd (cancel_order r id2 w)) /\
  requests (snd (cancel_order r id1 w)) = (requests w ++ [CancelAllOrders])%list /\
  requests (snd (cancel_order r id2 w)) = (requests w ++ [CancelAllOrders])%list /\
  (exists rest, forall id,
      log (snd (cancel_order r id w))
      = (log w ++ LogCancelling id :: rest)%list) /\
  fst (cancel_order Ack id1 w) = true /\
  current_order_id (glob (snd (cancel_order Ack id1 w))) = None /\
  acked (snd (cancel_order Ack id1 w)) = [].
Proof.
  repeat split; try (destruct r; reflexivity).
  destruct r as [|msg|].
  - exists [LogCancelled]. intro id. cbn. rewrite <- app_assoc. reflexivity.
  - exists [LogCancelError msg]. intro id. cbn. rewrite <- app_assoc. reflexivity.
  - exists [LogCancelException]. intro id. cbn. rewrite <- app_assoc. reflexivity.
Qed.

(** ** Quote parameters and prices *)

Lemma scan_first_existing (reads : list file_read) :
  scan_candidates reads =
  match first_existing reads with
  | Some (Loaded data) => ScanData (Some data)
  | Some InvalidJson => ScanReturnFalse
  | Some Unreadable => ScanRaise
  | Some FileNotFound | None => ScanData None
  end.
Proof.
  induction reads as [|f rest IH]; [reflexivity|].
  destruct f; cbn; auto.
Qed.

Lemma first_existing_not_missing (reads : list file_read) :
  first_existing reads <> Some FileNotFound.
Proof.
  induction reads as [|f rest IH]; cbn; [discriminate|].
  destruct f; try discriminate. exact IH.
Qed.

Section PricingFacts.

Variable float_of_str : string -> option pyfloat.
Variable PARAMS_DIR : string.
Variable MARKET_SYMBOL : string.
Variable REQUIRE_PARAMS : bool.

Local Abbreviation load :=
  (load_avellaneda_parameters float_of_str PARAMS_DIR MARKET_SYMBOL).
Local Abbreviation price :=
  (calculate_order_price float_of_str PARAMS_DIR MARKET_SYMBOL REQUIRE_PARAMS).
Local Abbreviation paths := (candidates PARAMS_DIR MARKET_SYMBOL).
Local Abbreviation valid := (valid_params float_of_str).
Local Abbreviation offset := (param_offset float_of_str).

Lemma load_reload (now : Q) (fs : string -> file_read) (g : globals) :
  cache_fresh now g = false ->
  load now fs g = reload float_of_str now (first_existing (map fs paths)) g.
Proof.
  intro Hf. unfold load_avellaneda_parameters. rewrite Hf.
  rewrite scan_first_existing.
  destruct (first_existing (map fs paths)) as [[| | |data]|];
    try reflexivity.
  unfold reload, valid_params.
  destruct (json_truthy data); cbn [negb andb]; [|reflexivity].
  destruct (validate_params float_of_str data) as [[]|]; reflexivity.
Qed.

(** Contents that pass validation are a dict whose [limit_orders] holds two
    finite offsets that are not negative. *)
Lemma validate_params_true (data : json) :
  validate_params float_of_str data = Ok true ->
  exists kv lo va vb da db,
    data = JObj kv /\
    dict_get kv "limit_orders" = Some (JObj lo) /\
    dict_get lo "delta_a" = Some va /\
    dict_get lo "delta_b" = Some vb /\
    py_float float_of_str va = Ok (Fin da) /\
    py_float float_of_str vb = Ok (Fin db) /\
    0 <= da /\ 0 <= db.
Proof.
  unfold validate_params. destruct data as [| | | | | |kv]; try discriminate.
  cbn [py_get bind].
  destruct (dict_get kv "limit_orders") as [[| | | | | |lo]|] eqn:Elo;
    try discriminate.
  cbn [is_dict negb py_get bind].
  destruct (dict_get lo "delta_a") as [va|] eqn:Ea;
    [|cbn; discriminate].
  destruct (dict_get lo "delta_b") as [vb|] eqn:Eb.
  2:{ destruct (py_float float_of_str va); cbn; discriminate. }
  destruct (py_float float_of_str va) as [x|] eqn:Ex; cbn [bind];
    [|discriminate].
  destruct (py_float float_of_str vb) as [y|] eqn:Ey; cbn [bind];
    [|discriminate].
  destruct x as [da| | |]; destruct y as [db| | |]; cbn; try discriminate.
  destruct (Qlt_bool da 0) eqn:Eda; destruct (Qlt_bool db 0) eqn:Edb;
    cbn; try discriminate.
  intros _. qprop. exists kv, lo, va, vb, da, db. repeat split; auto.
Qed.

Lemma invalid_contents_rejected (f : file_read) :
  invalid_contents float_of_str f -> valid_file float_of_str f = false.
Proof.
  intros [|data Hlo|data lo Hlo Hbad]; [reflexivity| |].
  - cbn. unfold valid_params. apply andb_false_intro2.
    destruct (validate_params float_of_str data) as [[]|] eqn:Ev;
      try reflexivity. exfalso.
    destruct (validate_params_true data Ev)
      as (kv & lo' & va & vb & da & db & -> & Hkv & _).
    cbn in Hlo. rewrite Hkv in Hlo. discriminate.
  - cbn. unfold valid_params. apply andb_false_intro2.
    destruct (validate_params float_of_str data) as [[]|] eqn:Ev;
      try reflexivity. exfalso.
    destruct (validate_params_true data Ev)
      as (kv & lo' & va & vb & da & db
          & -> & Hkv & Ha & Hb & Hfa & Hfb & Hda & Hdb).
    cbn in Hlo. rewrite Hkv in Hlo. injection Hlo as <-.
    unfold bad_offset, offset_of in Hbad.
    rewrite Ha, Hb, Hfa, Hfb in Hbad. destruct Hbad; lra.
Qed.

(** A successful load leaves a validated cache; so does a failed one. *)
Lemma load_keeps_cache_ok (now : Q) (fs : string -> file_read) (g : globals) :
  cache_ok float_of_str g ->
  cache_ok float_of_str (snd (load now fs g)).
Proof.
  intro Hok. destruct (cache_fresh now g) eqn:Hf.
  - unfold load_avellaneda_parameters. rewrite Hf. exact Hok.
  - rewrite (load_reload now fs g Hf). unfold reload.
    destruct (first_existing (map fs paths)) as [[| | |data]|];
      try exact I.
    destruct (valid data) eqn:Hv; [exact Hv | exact I].
Qed.

(** After a successful load the cache holds validated contents. *)
Lemma load_true_cache (now : Q) (fs : string -> file_read) (g : globals) :
  cache_ok float_of_str g ->
  fst (load now fs g) = true ->
  exists data,
    avellaneda_params (snd (load now fs g)) = Some data /\
    valid data = true.
Proof.
  intros Hok Ht. destruct (cache_fresh now g) eqn:Hf.
  - unfold load_avellaneda_parameters in *. rewrite Hf in *. cbn [snd].
    unfold cache_fresh in Hf. unfold cache_ok in Hok.
    destruct (avellaneda_params g) as [data|]; [|discriminate].
    exists data. auto.
  - rewrite (load_reload now fs g Hf) in *. unfold reload in *.
    destruct (first_existing (map fs paths)) as [[| | |data]|];
      try discriminate.
    destruct (valid data) eqn:Hv; [|discriminate].
    exists data. auto.
Qed.

(** The static quote around the mid price. *)
Lemma static_quote (mid : Q) (s : side) :
  exists r,
    (match s with
     | Buy => mul (Fin mid) (sub (Fin 1) (Fin SPREAD))
     | Sell => mul (Fin mid) (add (Fin 1) (Fin SPREAD))
     end) = Fin r /\
    r == match s with
         | Buy => mid * (1 - 0.00035)
         | Sell => mid * (1 + 0.00035)
         end.
Proof.
  destruct s; cbn; eexists; (split; [reflexivity|]);
    unfold SPREAD; field.
Qed.

(** C2: with a validated cache, when the loader reports success the quote is
    [mid - delta_b] on the Buy side and [mid + delta_a] on the Sell side, the
    offsets being those in the cache; when it reports failure the result is
    no quote under strict mode and otherwise [mid * (1 - 0.00035)] for Buy
    and [mid * (1 + 0.00035)] for Sell. *)
Theorem quote_price
    (now : Q) (fs : string -> file_read) (g : globals) (mid : Q) (s : side) :
  cache_ok float_of_str g ->
  let ok := fst (load now fs g) in
  let g' := snd (load now fs g) in
  (ok = true ->
   exists da db,
     offset g' "delta_a" = Ok (Fin da) /\
     offset g' "delta_b" = Ok (Fin db) /\
     0 <= da /\ 0 <= db /\
     price now fs (Fin mid) s g =
     (Ok (Some (Fin (match s with
                     | Buy => mid - db
                     | Sell => mid + da
                     end))), g')) /\
  (ok = false ->
   exists r,
     price now fs (Fin mid) s g =
     ((if REQUIRE_PARAMS then Ok None else Ok (Some (Fin r))), g') /\
     r == match s with
          | Buy => mid * (1 - 0.00035)
          | Sell => mid * (1 + 0.00035)
          end).
Proof.
  intros Hok ok g'. subst ok g'. split; intro Hr.
  - destruct (load_true_cache now fs g Hok Hr) as (data & Hd & Hv).
    unfold calculate_order_price.
    destruct (load now fs g) as [ok g'] eqn:El. cbn [fst snd] in *. subst ok.
    unfold params_truthy, param_offset. rewrite Hd.
    unfold valid_params in Hv. apply andb_prop in Hv as [Ht Hv].
    rewrite Ht. cbn [andb].
    destruct (validate_params float_of_str data) as [[]|] eqn:Ev;
      try discriminate.
    destruct (validate_params_true data Ev)
      as (kv & lo & va & vb & da & db
          & -> & Hkv & Ha & Hb & Hfa & Hfb & Hda & Hdb).
    exists da, db. cbn [py_item bind]. rewrite Hkv. cbn [py_item bind].
    rewrite Ha, Hb. cbn [bind]. rewrite Hfa, Hfb.
    repeat split; auto. destruct s; reflexivity.
  - destruct (static_quote mid s) as (r & Hq & Heq).
    exists r. split; [|exact Heq].
    unfold calculate_order_price.
    destruct (load now fs g) as [ok g'] eqn:El. cbn [fst snd] in *. subst ok.
    cbn [andb]. destruct REQUIRE_PARAMS; [reflexivity|].
    rewrite <- Hq. destruct s; reflexivity.
Qed.

(** C3, for a loader that consults the file: when the cache is not served
    (it is empty or at least as old as the refresh interval) and the first
    existing candidate has invalid contents, the loader reports failure, the
    cache is empty and the other globals are untouched; the price is then no
    quote under strict mode and the static quote otherwise. *)
Theorem invalid_file_empties_cache
    (now : Q) (fs : string -> file_read) (g : globals) (f : file_read)
    (mid : Q) (s : side) :
  cache_fresh now g = false ->
  first_existing (map fs paths) = Some f ->
  invalid_contents float_of_str f ->
  load now fs g = (false, set_avellaneda_params None g) /\
  avellaneda_params (snd (load now fs g)) = None /\
  exists r,
    price now fs (Fin mid) s g =
    ((if REQUIRE_PARAMS then Ok None else Ok (Some (Fin r))),
     set_avellaneda_params None g) /\
    r == match s with
         | Buy => mid * (1 - 0.00035)
         | Sell => mid * (1 + 0.00035)
         end.
Proof.
  intros Hf Hfirst Hinv.
  assert (load now fs g = (false, set_avellaneda_params None g)) as Hl.
  { rewrite (load_reload now fs g Hf), Hfirst. unfold reload.
    pose proof (invalid_contents_rejected f Hinv) as Hrej.
    destruct f as [| | |data]; try reflexivity.
    cbn in Hrej. rewrite Hrej. reflexivity. }
  split; [exact Hl|]. split; [rewrite Hl; reflexivity|].
  destruct (static_quote mid s) as (r & Hq & Heq).
  exists r. split; [|exact Heq].
  unfold calculate_order_price. rewrite Hl. cbn [andb].
  destruct REQUIRE_PARAMS; [reflexivity|].
  rewrite <- Hq. destruct s; reflexivity.
Qed.

(** C8, as the code has it: once the cache is not served, the first candidate
    that exists decides alone.  The load succeeds exactly when that file
    parses and validates, in which case its contents become the cache; later
    candidates are never consulted. *)
Theorem first_existing_candidate_decides
    (now : Q) (fs : string -> file_read) (g : globals) :
  cache_fresh now g = false ->
  (fst (load now fs g) = true <->
   exists data,
     first_existing (map fs paths) = Some (Loaded data) /\
     valid data = true) /\
  (forall data,
      first_existing (map fs paths) = Some (Loaded data) ->
      valid data = true ->
      avellaneda_params (snd (load now fs g)) = Some data) /\
  (forall fs',
      first_existing (map fs' paths) = first_existing (map fs paths) ->
      load now fs' g = load now fs g).
Proof.
  intro Hf. rewrite (load_reload now fs g Hf). repeat split.
  - unfold reload.
    destruct (first_existing (map fs paths)) as [[| | |data]|];
      try discriminate.
    destruct (valid_params float_of_str data) eqn:Hv; [|discriminate].
    intros _. exists data. auto.
  - intros (data & -> & Hv). unfold reload. rewrite Hv. reflexivity.
  - intros data -> Hv. unfold reload. rewrite Hv. reflexivity.
  - intros fs' Heq. rewrite (load_reload now fs' g Hf), Heq. reflexivity.
Qed.

End PricingFacts.

(** The specification's price example: mid 100 with offsets 0.2 and 0.3 gives
    99.8 and 100.3; without parameters, 99.965 and 100.035, or no quote under
    strict mode. *)
Lemma quote_price_example :
  (exists r,
      fst (calculate_order_price no_str_float "params" "PAXG" false 0 fs_good
             (Fin 100) Buy initial_globals) = Ok (Some (Fin r)) /\
      r == 99.8) /\
  (exists r,
      fst (calculate_order_price no_str_float "params" "PAXG" false 0 fs_good
             (Fin 100) Sell initial_globals) = Ok (Some (Fin r)) /\
      r == 100.3) /\
  (exists r,
      fst (calculate_order_price no_str_float "params" "PAXG" false 0
             fs_missing (Fin 100) Buy initial_globals) = Ok (Some (Fin r)) /\
      r == 99.965) /\
  (exists r,
      fst (calculate_order_price no_str_float "params" "PAXG" false 0
             fs_missing (Fin 100) Sell initial_globals) = Ok (Some (Fin r)) /\
      r == 100.035) /\
  fst (calculate_order_price no_str_float "params" "PAXG" true 0
         fs_missing (Fin 100) Buy initial_globals) = Ok None.
Proof.
  split; [|split; [|split; [|split]]].
  - destruct (quote_price no_str_float "params" "PAXG" false 0 fs_good
                initial_globals 100 Buy I) as [H _].
    destruct (H eq_refl) as (da & db & Ha & Hb & _ & _ & Hp).
    vm_compute in Hb. injection Hb as <-.
    eexists. rewrite Hp. split; reflexivity.
  - destruct (quote_price no_str_float "params" "PAXG" false 0 fs_good
                initial_globals 100 Sell I) as [H _].
    destruct (H eq_refl) as (da & db & Ha & Hb & _ & _ & Hp).
    vm_compute in Ha. injection Ha as <-.
    eexists. rewrite Hp. split; reflexivity.
  - destruct (quote_price no_str_float "params" "PAXG" false 0 fs_missing
                initial_globals 100 Buy I) as [_ H].
    destruct (H eq_refl) as (r & Hp & Hr).
    exists r. rewrite Hp. split; [reflexivity|]. rewrite Hr. reflexivity.
  - destruct (quote_price no_str_float "params" "PAXG" false 0 fs_missing
                initial_globals 100 Sell I) as [_ H].
    destruct (H eq_refl) as (r & Hp & Hr).
    exists r. rewrite Hp. split; [reflexivity|]. rewrite Hr. reflexivity.
  - destruct (quote_price no_str_float "params" "PAXG" true 0 fs_missing
                initial_globals 100 Buy I) as [_ H].
    destruct (H eq_refl) as (r & Hp & Hr).
    rewrite Hp. reflexivity.
Defined.

(** C3 as stated fails while the cache is served: ten seconds after a valid
    load the file is no longer JSON, yet the loader reports success, keeps the
    cached parameters and the price uses them. *)
Lemma fresh_cache_hides_invalid_file :
  invalid_contents no_str_float
    (fs_broken "params/avellaneda_parameters_PAXG.json") /\
  load_avellaneda_parameters no_str_float "params" "PAXG" 10 fs_broken
    cached_globals = (true, cached_globals) /\
  avellaneda_params cached_globals = Some sample_params /\
  fst (calculate_order_price no_str_float "params" "PAXG" false 10 fs_broken
         (Fin 100) Buy cached_globals) = Ok (Some (Fin (100 - 0.2))).
Proof.
  split; [constructor|]. repeat split; vm_compute; reflexivity.
Qed.

(** The same file read once the cache has aged past the refresh interval. *)
Lemma invalid_file_empties_cache_example :
  load_avellaneda_parameters no_str_float "params" "PAXG" 1000 fs_broken
    cached_globals = (false, set_avellaneda_params None cached_globals).
Proof.
  exact (proj1 (invalid_file_empties_cache no_str_float "params" "PAXG" false
                  1000 fs_broken cached_globals InvalidJson 100 Buy
                  eq_refl eq_refl (invalid_json _))).
Defined.

(** C8 as stated fails: the first candidate is not JSON, the second is
    readable and valid, and the lookup fails without trying it. *)
Lemma later_valid_candidate_not_tried :
  nth_error (candidates "conf" "PAXG") 1
    = Some "params/avellaneda_parameters_PAXG.json" /\
  valid_file no_str_float
    (fs_first_broken "params/avellaneda_parameters_PAXG.json") = true /\
  load_avellaneda_parameters no_str_float "conf" "PAXG" 0 fs_first_broken
    initial_globals = (false, initial_globals).
Proof.
  repeat split; vm_compute; reflexivity.
Qed.

(** A valid first candidate is loaded. *)
Lemma first_existing_candidate_example :
  fst (load_avellaneda_parameters no_str_float "conf" "PAXG" 0 fs_good
         initial_globals) = true.
Proof.
  apply (proj1 (first_existing_candidate_decides no_str_float "conf" "PAXG"
                  0 fs_good initial_globals eq_refl)).
  exists sample_params. split; reflexivity.
Defined.

(** ** Re-quoting when the price moves *)

Lemma relative_move (a l : Q) :
  0 < l -> (0.001 < a / l <-> 0.001 * l < a).
Proof.
  intro Hl. assert (~ l == 0) as Hn by lra. split; intro H.
  - assert (a == a / l * l) as -> by (field; exact Hn).
    apply Qmult_lt_compat_r; assumption.
  - apply Qlt_shift_div_l; assumption.
Qed.

(** With a positive last quoted mid the flag says whether the current mid is
    more than 0.1% of it away. *)
Lemma price_changed_spec (l mid : Q) :
  0 < l ->
  exists changed,
    price_changed (Some (Fin l)) (Fin mid) = Ok changed /\
    (changed = true <-> 0.001 * l < Qabs (mid - l)).
Proof.
  intro Hl. unfold price_changed, div, sub, add, neg, abs.
  assert (Qeq_bool l 0 = false) as ->
      by (apply Qeq_bool_false_iff; intro E; rewrite E in Hl; lra).
  cbn [bind]. eexists; split; [reflexivity|].
  unfold gtb, ltb. rewrite Qlt_bool_iff. apply relative_move. exact Hl.
Qed.

Section RequoteFacts.

Variable float_of_str : string -> option pyfloat.
Variable PARAMS_DIR : string.
Variable MARKET_SYMBOL : string.
Variable REQUIRE_PARAMS : bool.

(** Loading parameters and pricing touch nothing but the parameter cache. *)
Lemma load_keeps_quoting_state (now : Q) (fs : string -> file_read) (g : globals) :
  let g' := snd (load_avellaneda_parameters float_of_str PARAMS_DIR
                   MARKET_SYMBOL now fs g) in
  current_order_id g' = current_order_id g /\
  last_mid_price g' = last_mid_price g /\
  order_side g' = order_side g /\
  available_capital g' = available_capital g /\
  current_position_size g' = current_position_size g.
Proof.
  cbv zeta. unfold load_avellaneda_parameters.
  destruct (cache_fresh now g); [cbn; auto|].
  destruct (scan_candidates _) as [[data|]| |]; try (cbn; auto).
  destruct (negb (json_truthy data)); [cbn; auto|].
  destruct (validate_params float_of_str data) as [[]|]; cbn; auto.
Qed.

Lemma price_keeps_quoting_state
    (now : Q) (fs : string -> file_read) (mid : pyfloat) (s : side) (g : globals) :
  let g' := snd (calculate_order_price float_of_str PARAMS_DIR MARKET_SYMBOL
                   REQUIRE_PARAMS now fs mid s g) in
  current_order_id g' = current_order_id g /\
  last_mid_price g' = last_mid_price g /\
  order_side g' = order_side g /\
  available_capital g' = available_capital g /\
  current_position_size g' = current_position_size g.
Proof.
  cbv zeta. unfold calculate_order_price.
  pose proof (load_keeps_quoting_state now fs g) as H. cbv zeta in H.
  destruct (load_avellaneda_parameters _ _ _ now fs g) as [ok g'].
  cbn [snd] in H.
  destruct (ok && params_truthy g'); [exact H|].
  destruct REQUIRE_PARAMS; exact H.
Qed.

(** C6, as the code has it: with an order outstanding and a positive last
    quoted mid, an iteration that obtains a quote cancels the order before
    sizing exactly when the current mid price is more than 0.1% of the last
    quoted mid away from it; the computed order price plays no part.  An
    iteration that ends without a quote sends nothing. *)
Theorem requote_on_mid_move
    (healthy restarted : bool) (now : Q) (fs : string -> file_read)
    (w : world) (id : Z) (l mid : Q) (r : reply) :
  current_order_id (glob w) = Some id ->
  last_mid_price (glob w) = Some (Fin l) ->
  0 < l ->
  let c := begin_cycle float_of_str PARAMS_DIR MARKET_SYMBOL REQUIRE_PARAMS
             healthy restarted (Some (Fin mid)) now fs w in
  current_order_id (glob (snd c)) = Some id /\
  requests (snd c) = requests w /\
  match fst c with
  | Quoted m price changed =>
      m = Fin mid /\
      (changed = true <-> 0.001 * l < Qabs (mid - l)) /\
      requote r changed (snd c) =
        (if changed then snd (cancel_order r id (snd c)) else snd c)
  | Top => True
  | _ => False
  end.
Proof.
  intros Hid Hl Hpos. cbv zeta. unfold begin_cycle.
  destruct (negb healthy && negb restarted); [cbn; auto|].
  rewrite Hl. destruct (price_changed_spec l mid Hpos) as (ch & -> & Hch).
  pose proof (price_keeps_quoting_state now fs (Fin mid)
                (order_side (glob w)) (glob w)) as Hk.
  cbv zeta in Hk.
  destruct (calculate_order_price _ _ _ _ now fs (Fin mid) _ (glob w))
    as [op g'].
  cbn [snd] in Hk. destruct Hk as (Hk & _). rewrite Hid in Hk.
  destruct op as [[price|]|e]; cbn [fst snd glob with_glob requests];
    try (split; [exact Hk | split; reflexivity]).
  split; [exact Hk|]. split; [reflexivity|].
  split; [reflexivity|]. split; [exact Hch|].
  unfold requote. cbn [glob with_glob]. rewrite Hk.
  destruct ch; reflexivity.
Qed.

End RequoteFacts.

(** C6 as stated fails: the order was quoted at mid 100; at mid 99.93 the Buy
    price is more than 0.1% below 100, yet the flag is off and the order is
    left in place. *)
Lemma order_price_move_without_cancel :
  begin_cycle no_str_float "params" "PAXG" false true true
    (Some (Fin 99.93)) 0 fs_missing resting_world
  = (Quoted (Fin 99.93) (mul (Fin 99.93) (sub (Fin 1) (Fin SPREAD))) false,
     resting_world) /\
  price_changed (Some (Fin 100)) (mul (Fin 99.93) (sub (Fin 1) (Fin SPREAD)))
  = Ok true /\
  requote Ack false resting_world = resting_world.
Proof.
  repeat split; vm_compute; reflexivity.
Qed.

(** The specification's example: quoted at mid 100, a mid of 100.05 leaves
    the order in place and a mid of 100.2 cancels it. *)
Example requote_examples :
  (let c := begin_cycle no_str_float "params" "PAXG" false true true
              (Some (Fin 100.05)) 0 fs_missing resting_world in
   match fst c with
   | Quoted _ _ changed =>
       changed = false /\ requests (requote Ack changed (snd c)) = []
   | _ => False
   end) /\
  (let c := begin_cycle no_str_float "params" "PAXG" false true true
              (Some (Fin 100.2)) 0 fs_missing resting_world in
   match fst c with
   | Quoted _ _ changed =>
       changed = true /\
       requests (requote Ack changed (snd c)) = [CancelAllOrders] /\
       current_order_id (glob (requote Ack changed (snd c))) = None
   | _ => False
   end).
Proof.
  split; vm_compute; repeat split; reflexivity.
Qed.

(** The theorem at the resting order and a mid of 100.2. *)
Lemma requote_on_mid_move_example :
  let c := begin_cycle no_str_float "params" "PAXG" false true true
             (Some (Fin 100.2)) 0 fs_missing resting_world in
  current_order_id (glob (snd c)) = Some 1%Z /\
  requests (snd c) = requests resting_world /\
  match fst c with
  | Quoted m price changed =>
      m = Fin 100.2 /\
      (changed = true <-> 0.001 * 100 < Qabs (100.2 - 100)) /\
      requote Ack changed (snd c) =
        (if changed then snd (cancel_order Ack 1 (snd c)) else snd c)
  | Top => True
  | _ => False
  end.
Proof.
  exact (requote_on_mid_move no_str_float "params" "PAXG" false true true 0
           fs_missing resting_world 1%Z 100 100.2 Ack
           eq_refl eq_refl eq_refl).
Defined.

(** ** The single recorded order *)

Lemma cancel_order_effect (r : reply) (id : Z) (w : world) :
  effect w (snd (cancel_order r id w)).
Proof.
  destruct r; cbn.
  - apply eff_cancelled; reflexivity.
  - apply eff_cancel_failed; reflexivity.
  - apply eff_cancel_failed; reflexivity.
Qed.

Lemma with_glob_quiet (f : globals -> globals) (w : world) :
  current_order_id (f (glob w)) = current_order_id (glob w) ->
  effect w (with_glob f w).
Proof.
  intro H. apply eff_quiet; [reflexivity | reflexivity | exact H].
Qed.

Lemma effect_refl (w : world) : effect w w.
Proof. apply eff_quiet; reflexivity. Qed.

Lemma app_one_inv {A : Type} (l : list A) (x y : A) :
  (l ++ [x])%list = (l ++ [y])%list -> x = y.
Proof.
  intro H. apply app_inv_head in H. congruence.
Qed.

Lemma app_one_neq {A : Type} (l : list A) (x : A) : (l ++ [x])%list <> l.
Proof.
  intro H. apply (f_equal (@List.length A)) in H.
  rewrite length_app in H. cbn in H. lia.
Qed.

Section LoopFacts.

Variable float_of_str : string -> option pyfloat.
Variable ACCOUNT_INDEX : Z.
Variable market_key : string.
Variable PARAMS_DIR : string.
Variable MARKET_SYMBOL : string.
Variable REQUIRE_PARAMS : bool.
Variable USE_DYNAMIC_SIZING : bool.
Variable AMOUNT_TICK_SIZE : Q.
Variable PRICE_TICK_SIZE : Q.
Variable CLOSE_LONG_ON_STARTUP : bool.

Local Abbreviation steps :=
  (step float_of_str ACCOUNT_INDEX market_key PARAMS_DIR MARKET_SYMBOL
     REQUIRE_PARAMS USE_DYNAMIC_SIZING AMOUNT_TICK_SIZE PRICE_TICK_SIZE
     CLOSE_LONG_ON_STARTUP).
Local Abbreviation reach :=
  (reachable float_of_str ACCOUNT_INDEX market_key PARAMS_DIR MARKET_SYMBOL
     REQUIRE_PARAMS USE_DYNAMIC_SIZING AMOUNT_TICK_SIZE PRICE_TICK_SIZE
     CLOSE_LONG_ON_STARTUP).

Lemma user_stats_keeps_order (a : Z) (stats : json) (g g' : globals) :
  on_user_stats_update float_of_str ACCOUNT_INDEX a stats g = Ok g' ->
  current_order_id g' = current_order_id g.
Proof.
  unfold on_user_stats_update.
  destruct (Z.eqb a ACCOUNT_INDEX); [|cbn; intros [= <-]; reflexivity].
  destruct (py_get stats "available_balance" (JNum (Fin 0))) as [x|[]];
    cbn; try discriminate; try (intros [= <-]; reflexivity).
  destruct (py_float float_of_str x) as [fx|[]];
    cbn; try discriminate; try (intros [= <-]; reflexivity).
  destruct (py_get stats "portfolio_value" (JNum (Fin 0))) as [y|[]];
    cbn; try discriminate; try (intros [= <-]; reflexivity).
  destruct (py_float float_of_str y) as [fy|[]];
    cbn; try discriminate; try (intros [= <-]; reflexivity).
  destruct (_ && _); cbn; intros [= <-]; reflexivity.
Qed.

Lemma account_all_keeps_order (a : Z) (data : json) (g : globals) :
  current_order_id
    (on_account_all_update float_of_str ACCOUNT_INDEX market_key a data g)
  = current_order_id g.
Proof.
  unfold on_account_all_update.
  destruct (Z.eqb a ACCOUNT_INDEX); [|reflexivity].
  destruct (bind _ _) as [sz|]; [|reflexivity].
  destruct (neqb sz (current_position_size g)); reflexivity.
Qed.

Lemma deliver_effect (m : stream_msg) (w : world) :
  effect w (deliver float_of_str ACCOUNT_INDEX market_key m w).
Proof.
  destruct m as [stats|data]; unfold deliver.
  - destruct (on_user_stats_update _ _ _ stats (glob w)) as [g'|] eqn:E;
      [|apply effect_refl].
    apply with_glob_quiet. exact (user_stats_keeps_order _ _ _ _ E).
  - apply with_glob_quiet. apply account_all_keeps_order.
Qed.

Lemma close_long_position_effect
    (r : reply) (pos mid : pyfloat) (id : Z) (w : world) :
  effect w (snd (close_long_position AMOUNT_TICK_SIZE PRICE_TICK_SIZE
                   r pos mid id w)).
Proof.
  unfold close_long_position.
  destruct (bind _ _) as [[b p]|]; [|apply eff_quiet; reflexivity].
  destruct r; cbn.
  - eapply eff_placed; reflexivity.
  - eapply eff_place_failed; reflexivity.
  - eapply eff_place_failed; reflexivity.
Qed.

Lemma effect_then_glob (f : globals -> globals) (w w' : world) :
  (forall g, current_order_id (f g) = current_order_id g) ->
  effect w w' -> effect w (with_glob f w').
Proof.
  intros Hf [Hr Ha Hi | Hr Ha Hi | Hr Ha Hi | id b p a ro Hr Ha Hi
            | id b p a ro Hr Ha Hi].
  - apply eff_quiet; cbn; rewrite ?Hf; assumption.
  - apply eff_cancelled; cbn; rewrite ?Hf; assumption.
  - apply eff_cancel_failed; cbn; rewrite ?Hf; assumption.
  - eapply eff_placed; cbn; rewrite ?Hf; eassumption.
  - eapply eff_place_failed; cbn; rewrite ?Hf; eassumption.
Qed.

Lemma place_order_effect
    (r : reply) (s : side) (price : pyfloat) (id : Z) (amt : pyfloat)
    (w w' : world) (ok : bool) :
  place_order AMOUNT_TICK_SIZE PRICE_TICK_SIZE r s price id amt w
  = Ok (ok, w') ->
  effect w w' /\ places w w'.
Proof.
  unfold place_order, places.
  destruct (scaled amt AMOUNT_TICK_SIZE) as [b|]; cbn [bind]; [|discriminate].
  destruct (scaled price PRICE_TICK_SIZE) as [p|]; cbn [bind]; [|discriminate].
  destruct r; intros [= <- <-]; cbn; split;
    try (repeat eexists; reflexivity).
  - eapply eff_placed; reflexivity.
  - eapply eff_place_failed; reflexivity.
  - eapply eff_place_failed; reflexivity.
Qed.

Lemma quiet_no_place (w w' : world) :
  requests w' = requests w -> ~ places w w'.
Proof.
  intros H (id & b & p & a & ro & Hp). rewrite H in Hp.
  symmetry in Hp. exact (app_one_neq _ _ Hp).
Qed.

Lemma cancel_no_place (w w' : world) :
  requests w' = (requests w ++ [CancelAllOrders])%list -> ~ places w w'.
Proof.
  intros H (id & b & p & a & ro & Hp). rewrite H in Hp.
  apply app_one_inv in Hp. discriminate.
Qed.

Lemma cancel_order_no_place (r : reply) (id : Z) (w : world) :
  ~ places w (snd (cancel_order r id w)).
Proof.
  apply cancel_no_place. destruct r; reflexivity.
Qed.

Lemma deliver_requests (m : stream_msg) (w : world) :
  requests (deliver float_of_str ACCOUNT_INDEX market_key m w) = requests w.
Proof.
  destruct m as [stats|data]; unfold deliver; [|reflexivity].
  destruct (on_user_stats_update _ _ _ stats (glob w)); reflexivity.
Qed.

Lemma reconcile_side_keeps_order (mid : pyfloat) (g : globals) :
  current_order_id (reconcile_side mid g) = current_order_id g.
Proof.
  unfold reconcile_side. destruct (order_side g).
  - destruct (gtb _ _); reflexivity.
  - destruct (ltb _ _); [reflexivity|].
    destruct (_ && _); reflexivity.
Qed.

(** The acknowledged orders stay equal to the record across an effect that
    places only when nothing is recorded. *)
Lemma effect_keeps_record (w w' : world) :
  effect w w' ->
  (places w w' -> current_order_id (glob w) = None) ->
  acked w = recorded (glob w) ->
  acked w' = recorded (glob w').
Proof.
  unfold recorded.
  intros [Hr Ha Hi | Hr Ha Hi | Hr Ha Hi | id b p a ro Hr Ha Hi
         | id b p a ro Hr Ha Hi] Hp Hinv.
  - rewrite Ha, Hi. exact Hinv.
  - rewrite Ha, Hi. reflexivity.
  - rewrite Ha, Hi. exact Hinv.
  - rewrite Ha, Hi, Hinv.
    rewrite (Hp (ex_intro _ id (ex_intro _ b (ex_intro _ p
               (ex_intro _ a (ex_intro _ ro Hr)))))).
    reflexivity.
  - rewrite Ha, Hi. exact Hinv.
Qed.

(** What one step does: its effect on the record, that it places only when
    nothing is recorded, and that it keeps the invariant. *)
Lemma step_effect (c c' : pc * world) :
  order_invariant c ->
  steps c c' ->
  effect (snd c) (snd c') /\
  (places (snd c) (snd c') -> current_order_id (glob (snd c)) = None) /\
  order_invariant c'.
Proof.
  intros [Hrec Hboot] Hstep.
  assert (effect (snd c) (snd c') /\
          (places (snd c) (snd c') -> current_order_id (glob (snd c)) = None) /\
          (fst c' = Boot \/ fst c' = Starting ->
           current_order_id (glob (snd c')) = None)) as (He & Hp & Hb).
  { destruct Hstep
      as [r w | mid micros r w | w Hz | healthy restarted book now fs w
          | r mid price changed w | micros r mid price w | mid w | r mid w
          | mid w | m p w Hrun | r p w Hrun];
      cbn [fst snd] in *.
    - (* boot *)
      assert (current_order_id (glob w) = None) as Hn by auto.
      unfold boot. destruct r; cbn [fst snd].
      + split; [apply eff_cancelled; auto|].
        split; [intros _; exact Hn | intros _; exact Hn].
      + split; [apply eff_cancel_failed; reflexivity|].
        split; [intros _; exact Hn | intros [H|H]; discriminate].
      + split; [apply eff_cancel_failed; reflexivity|].
        split; [intros _; exact Hn | intros [H|H]; discriminate].
    - (* start_trading *)
      assert (current_order_id (glob w) = None) as Hn by auto.
      split; [|split; [intros _; exact Hn|]].
      + unfold start_trading.
        destruct CLOSE_LONG_ON_STARTUP.
        * destruct (gtb _ _); [|apply effect_refl].
          destruct (usable_mid mid) as [m|]; [|apply effect_refl].
          pose proof (close_long_position_effect r
                        (current_position_size (glob w)) m
                        (fresh_order_id micros) w) as Hc.
          destruct (close_long_position _ _ r _ m _ w) as [ok w1].
          cbn [snd] in Hc.
          destruct ok; cbn [snd]; [|exact Hc].
          apply effect_then_glob; [reflexivity | exact Hc].
        * destruct (gtb _ _); [|apply effect_refl].
          destruct (usable_mid mid) as [m|];
            [destruct (ltb _ _)|]; apply with_glob_quiet; reflexivity.
      + unfold start_trading.
        destruct CLOSE_LONG_ON_STARTUP.
        * destruct (gtb _ _); [|intros [H|H]; discriminate].
          destruct (usable_mid mid) as [m|]; [|intros [H|H]; discriminate].
          destruct (close_long_position _ _ r _ m _ w) as [[] w1];
            intros [H|H]; discriminate.
        * destruct (gtb _ _); [|intros [H|H]; discriminate].
          destruct (usable_mid mid) as [m|];
            [destruct (ltb _ _)|]; intros [H|H]; discriminate.
    - (* the startup close is confirmed *)
      split; [apply effect_refl|].
      split; [intro H; exfalso; revert H; apply quiet_no_place; reflexivity|].
      intros [H|H]; discriminate.
    - (* begin_cycle *)
      assert (effect w (snd (begin_cycle float_of_str PARAMS_DIR MARKET_SYMBOL
                               REQUIRE_PARAMS healthy restarted book now fs w))
              /\ requests (snd (begin_cycle float_of_str PARAMS_DIR
                                  MARKET_SYMBOL REQUIRE_PARAMS healthy
                                  restarted book now fs w)) = requests w
              /\ (fst (begin_cycle float_of_str PARAMS_DIR MARKET_SYMBOL
                         REQUIRE_PARAMS healthy restarted book now fs w) = Boot
                  \/ fst (begin_cycle float_of_str PARAMS_DIR MARKET_SYMBOL
                            REQUIRE_PARAMS healthy restarted book now fs w)
                     = Starting -> False)) as (H1 & H2 & H3).
      { unfold begin_cycle.
        destruct (negb healthy && negb restarted);
          [split; [apply effect_refl | split; [reflexivity|]];
           intros [H|H]; discriminate|].
        destruct book as [m|];
          [|split; [apply effect_refl | split; [reflexivity|]];
            intros [H|H]; discriminate].
        destruct (price_changed _ m) as [ch|];
          [|split; [apply effect_refl | split; [reflexivity|]];
            intros [H|H]; discriminate].
        pose proof (price_keeps_quoting_state float_of_str PARAMS_DIR
                      MARKET_SYMBOL REQUIRE_PARAMS now fs m
                      (order_side (glob w)) (glob w)) as Hk.
        cbv zeta in Hk.
        destruct (calculate_order_price _ _ _ _ now fs m _ (glob w))
          as [op g'].
        cbn [snd] in Hk. destruct Hk as (Hk & _).
        destruct op as [[price|]|e]; cbn [fst snd];
          (split; [apply with_glob_quiet; exact Hk | split; [reflexivity|]];
           intros [H|H]; discriminate). }
      split; [exact H1|].
      split; [intro H; exfalso; revert H; apply quiet_no_place; exact H2|].
      intro H. exfalso. exact (H3 H).
    - (* requote *)
      unfold requote.
      destruct (current_order_id (glob w)) as [id|] eqn:Hid;
        [destruct changed|].
      + split; [apply cancel_order_effect|].
        split; [intro H; exfalso; revert H; apply cancel_order_no_place|].
        intros [H|H]; discriminate.
      + split; [apply effect_refl|].
        split; [intro H; exfalso; revert H; apply quiet_no_place; reflexivity|].
        intros [H|H]; discriminate.
      + split; [apply effect_refl|].
        split; [intros _; reflexivity | intros [H|H]; discriminate].
    - (* place_phase *)
      unfold place_phase.
      destruct (current_order_id (glob w)) as [id|] eqn:Hid.
      { split; [apply effect_refl|].
        split; [intro H; exfalso; revert H; apply quiet_no_place; reflexivity|].
        intros [H|H]; discriminate. }
      split; [|split; [intros _; reflexivity|]].
      + destruct (order_size _ mid (glob w)) as [amt|]; [|apply effect_refl].
        destruct (gtb amt (Fin 0)); [|apply effect_refl].
        destruct (place_order _ _ r _ price _ amt _) as [[ok w2]|] eqn:Epl;
          [|apply with_glob_quiet; reflexivity].
        destruct (place_order_effect _ _ _ _ _ _ _ _ Epl) as [He _].
        assert (effect w w2) as He'.
        { destruct He as [Hr Ha Hi | Hr Ha Hi | Hr Ha Hi | i b p a ro Hr Ha Hi
                         | i b p a ro Hr Ha Hi].
          - apply eff_quiet; assumption.
          - apply eff_cancelled; assumption.
          - apply eff_cancel_failed; assumption.
          - eapply eff_placed; eassumption.
          - eapply eff_place_failed; eassumption. }
        destruct ok; cbn [snd]; [|exact He'].
        apply effect_then_glob; [reflexivity | exact He'].
      + destruct (order_size _ mid (glob w)) as [amt|];
          [|intros [H|H]; discriminate].
        destruct (gtb amt (Fin 0)); [|intros [H|H]; discriminate].
        destruct (place_order _ _ r _ price _ amt _) as [[[] w2]|];
          intros [H|H]; discriminate.
    - (* sleep *)
      split; [apply effect_refl|].
      split; [intro H; exfalso; revert H; apply quiet_no_place; reflexivity|].
      intros [H|H]; discriminate.
    - (* timeout_cancel *)
      unfold timeout_cancel.
      destruct (current_order_id (glob w)) as [id|] eqn:Hid.
      + split; [apply cancel_order_effect|].
        split; [intro H; exfalso; revert H; apply cancel_order_no_place|].
        intros [H|H]; discriminate.
      + split; [apply effect_refl|].
        split; [intros _; reflexivity | intros [H|H]; discriminate].
    - (* reconcile_side *)
      split; [apply with_glob_quiet; apply reconcile_side_keeps_order|].
      split; [intro H; exfalso; revert H; apply quiet_no_place; reflexivity|].
      intros [H|H]; discriminate.
    - (* a stream delivery *)
      pose proof (deliver_effect m w) as Hd.
      split; [exact Hd|].
      split; [intro H; exfalso; revert H; apply quiet_no_place;
              apply deliver_requests|].
      intro Hs. 
      assert (current_order_id (glob w) = None) as Hn by auto.
      destruct Hd as [Hr Ha Hi | Hr Ha Hi | Hr Ha Hi | i b p' a ro Hr Ha Hi
                     | i b p' a ro Hr Ha Hi];
        try congruence.
      exfalso. rewrite deliver_requests in Hr.
      symmetry in Hr. exact (app_one_neq _ _ Hr).
    - (* shutdown *)
      unfold cleanup.
      destruct (current_order_id (glob w)) as [id|] eqn:Hid.
      + split; [apply cancel_order_effect|].
        split; [intro H; exfalso; revert H; apply cancel_order_no_place|].
        intros [H|H]; discriminate.
      + split; [apply effect_refl|].
        split; [intros _; reflexivity | intros [H|H]; discriminate]. }
  split; [exact He|]. split; [exact Hp|].
  split; [exact (effect_keeps_record _ _ He Hp Hrec) | exact Hb].
Qed.

Lemma reachable_invariant (c : pc * world) : reach c -> order_invariant c.
Proof.
  induction 1 as [|c c' _ IH Hstep].
  - split; [reflexivity | intros _; reflexivity].
  - exact (proj2 (proj2 (step_effect c c' IH Hstep))).
Qed.

(** C4: in every reachable state the orders acknowledged and not yet
    cancelled are exactly the one the program records, so there is at most
    one; a step places an order only from a state with nothing recorded; a
    step never replaces a recorded id by another; an acknowledged placement
    records exactly its id and an acknowledged cancel clears the record. *)
Theorem single_recorded_order :
  (forall c,
      reach c ->
      acked (snd c) = recorded (glob (snd c)) /\
      (List.length (acked (snd c)) <= 1)%nat /\
      forall c',
        steps c c' ->
        effect (snd c) (snd c') /\
        (places (snd c) (snd c') ->
         current_order_id (glob (snd c)) = None /\ acked (snd c) = []) /\
        (forall id,
            current_order_id (glob (snd c)) = Some id ->
            current_order_id (glob (snd c')) = Some id \/
            current_order_id (glob (snd c')) = None)) /\
  (forall s price id amt w ok w',
      place_order AMOUNT_TICK_SIZE PRICE_TICK_SIZE Ack s price id amt w
      = Ok (ok, w') ->
      ok = true /\
      current_order_id (glob w') = Some id /\
      acked w' = id :: acked w) /\
  (forall id w,
      fst (cancel_order Ack id w) = true /\
      current_order_id (glob (snd (cancel_order Ack id w))) = None /\
      acked (snd (cancel_order Ack id w)) = []).
Proof.
  split; [|split].
  - intros c Hreach.
    pose proof (reachable_invariant c Hreach) as Hinv.
    destruct Hinv as [Hrec Hboot].
    split; [exact Hrec|]. split.
    { rewrite Hrec. unfold recorded.
      destruct (current_order_id (glob (snd c))); cbn; lia. }
    intros c' Hstep.
    destruct (step_effect c c' (conj Hrec Hboot) Hstep) as (He & Hp & _).
    split; [exact He|]. split.
    + intro Hpl. pose proof (Hp Hpl) as Hn. split; [exact Hn|].
      rewrite Hrec. unfold recorded. rewrite Hn. reflexivity.
    + intros id Hid.
      destruct He as [Hr Ha Hi | Hr Ha Hi | Hr Ha Hi | i b p a ro Hr Ha Hi
                     | i b p a ro Hr Ha Hi].
      * left. congruence.
      * right. exact Hi.
      * left. congruence.
      * exfalso.
        assert (places (snd c) (snd c')) as Hpl
            by (exists i, b, p, a, ro; exact Hr).
        rewrite (Hp Hpl) in Hid. discriminate.
      * left. congruence.
  - intros s price id amt w ok w'. unfold place_order.
    destruct (scaled amt AMOUNT_TICK_SIZE) as [b|]; cbn [bind];
      [|discriminate].
    destruct (scaled price PRICE_TICK_SIZE) as [p|]; cbn [bind];
      [|discriminate].
    intros [= <- <-]. repeat split.
  - intros id w. repeat split.
Qed.

End LoopFacts.

(** The invariant at the end of the sample run: the order with id 123456 is
    the one acknowledged and the one recorded. *)
Lemma single_recorded_order_example :
  fst run_placed = Waiting (Fin 100) /\
  acked (snd run_placed) = recorded (glob (snd run_placed)) /\
  acked (snd run_placed) = [123456%Z].
Proof.
  assert (reachable no_str_float 7 "48" "params" "PAXG" false true
            0.0001 0.01 false run_placed) as Hreach.
  { unfold run_placed.
    eapply reach_step; [|apply step_place].
    eapply reach_step; [|apply step_requote].
    change (Quoted (Fin 100) run_quote true, run_quoted)
      with (begin_cycle no_str_float "params" "PAXG" false true true
              (Some (Fin 100)) 0 fs_missing run_started).
    eapply reach_step; [|apply step_begin].
    change (Top, run_started)
      with (start_trading 0.0001 0.01 false None 0 Ack
              (snd (boot Ack initial_world))).
    eapply reach_step; [|apply step_start].
    change (Starting, snd (boot Ack initial_world))
      with (boot Ack initial_world).
    eapply reach_step; [apply reach_init | apply step_boot]. }
  destruct (proj1 (single_recorded_order no_str_float 7 "48" "params" "PAXG"
                     false true 0.0001 0.01 false) run_placed Hreach)
    as (Hrec & _ & _).
  split; [reflexivity|]. split; [exact Hrec | reflexivity].
Defined.

(** ** The parameter cache along a run *)

(** Destructs the scrutinee of every match in the goal. *)
Ltac split_matches :=
  repeat match goal with
    | |- context [match ?x with _ => _ end] => destruct x
    end.

Section CacheFacts.

Variable float_of_str : string -> option pyfloat.
Variable ACCOUNT_INDEX : Z.
Variable market_key : string.
Variable PARAMS_DIR : string.
Variable MARKET_SYMBOL : string.
Variable REQUIRE_PARAMS : bool.
Variable USE_DYNAMIC_SIZING : bool.
Variable AMOUNT_TICK_SIZE : Q.
Variable PRICE_TICK_SIZE : Q.
Variable CLOSE_LONG_ON_STARTUP : bool.

Lemma price_state_is_load_state
    (now : Q) (fs : string -> file_read) (mid : pyfloat) (s : side) (g : globals) :
  snd (calculate_order_price float_of_str PARAMS_DIR MARKET_SYMBOL
         REQUIRE_PARAMS now fs mid s g)
  = snd (load_avellaneda_parameters float_of_str PARAMS_DIR MARKET_SYMBOL
           now fs g).
Proof.
  unfold calculate_order_price.
  destruct (load_avellaneda_parameters _ _ _ now fs g) as [ok g'].
  destruct (ok && params_truthy g'); [reflexivity|].
  destruct REQUIRE_PARAMS; reflexivity.
Qed.

Lemma user_stats_keeps_cache (a : Z) (stats : json) (g g' : globals) :
  on_user_stats_update float_of_str ACCOUNT_INDEX a stats g = Ok g' ->
  avellaneda_params g' = avellaneda_params g.
Proof.
  unfold on_user_stats_update.
  destruct (Z.eqb a ACCOUNT_INDEX); [|cbn; intros [= <-]; reflexivity].
  destruct (py_get stats "available_balance" (JNum (Fin 0))) as [x|[]];
    cbn; try discriminate; try (intros [= <-]; reflexivity).
  destruct (py_float float_of_str x) as [fx|[]];
    cbn; try discriminate; try (intros [= <-]; reflexivity).
  destruct (py_get stats "portfolio_value" (JNum (Fin 0))) as [y|[]];
    cbn; try discriminate; try (intros [= <-]; reflexivity).
  destruct (py_float float_of_str y) as [fy|[]];
    cbn; try discriminate; try (intros [= <-]; reflexivity).
  destruct (_ && _); cbn; intros [= <-]; reflexivity.
Qed.

Lemma deliver_keeps_cache (m : stream_msg) (w : world) :
  avellaneda_params
    (glob (deliver float_of_str ACCOUNT_INDEX market_key m w))
  = avellaneda_params (glob w).
Proof.
  destruct m as [stats|data]; unfold deliver.
  - destruct (on_user_stats_update _ _ _ stats (glob w)) as [g'|] eqn:E;
      [|reflexivity].
    exact (user_stats_keeps_cache _ _ _ _ E).
  - cbn. unfold on_account_all_update. split_matches; reflexivity.
Qed.

Lemma cancel_order_keeps_cache (r : reply) (id : Z) (w : world) :
  avellaneda_params (glob (snd (cancel_order r id w)))
  = avellaneda_params (glob w).
Proof. destruct r; reflexivity. Qed.

Lemma close_long_position_keeps_cache
    (r : reply) (pos mid : pyfloat) (id : Z) (w : world) :
  avellaneda_params
    (glob (snd (close_long_position AMOUNT_TICK_SIZE PRICE_TICK_SIZE
                  r pos mid id w)))
  = avellaneda_params (glob w).
Proof.
  unfold close_long_position.
  destruct (bind _ _) as [[b p]|]; [|reflexivity].
  destruct r; reflexivity.
Qed.

Lemma place_order_keeps_cache
    (r : reply) (s : side) (price : pyfloat) (id : Z) (amt : pyfloat)
    (w w' : world) (ok : bool) :
  place_order AMOUNT_TICK_SIZE PRICE_TICK_SIZE r s price id amt w
  = Ok (ok, w') ->
  avellaneda_params (glob w') = avellaneda_params (glob w).
Proof.
  unfold place_order.
  destruct (scaled amt AMOUNT_TICK_SIZE) as [b|]; cbn [bind]; [|discriminate].
  destruct (scaled price PRICE_TICK_SIZE) as [p|]; cbn [bind]; [|discriminate].
  destruct r; intros [= <- <-]; reflexivity.
Qed.

(** Only [begin_cycle] touches the parameter cache, and it does so through
    the loader. *)
Lemma step_keeps_cache_ok (c c' : pc * world) :
  cache_ok float_of_str (glob (snd c)) ->
  step float_of_str ACCOUNT_INDEX market_key PARAMS_DIR MARKET_SYMBOL
    REQUIRE_PARAMS USE_DYNAMIC_SIZING AMOUNT_TICK_SIZE PRICE_TICK_SIZE
    CLOSE_LONG_ON_STARTUP c c' ->
  cache_ok float_of_str (glob (snd c')).
Proof.
  intros Hok Hstep. unfold cache_ok in *.
  destruct Hstep
    as [r w | mid micros r w | w Hz | healthy restarted book now fs w
        | r mid price changed w | micros r mid price w | mid w | r mid w
        | mid w | m p w Hrun | r p w Hrun];
    cbn [fst snd] in *.
  - destruct r; exact Hok.
  - assert (avellaneda_params
              (glob (snd (start_trading AMOUNT_TICK_SIZE PRICE_TICK_SIZE
                            CLOSE_LONG_ON_STARTUP mid micros r w)))
            = avellaneda_params (glob w)) as ->; [|exact Hok].
    unfold start_trading.
    destruct CLOSE_LONG_ON_STARTUP.
    + destruct (gtb _ _); [|reflexivity].
      destruct (usable_mid mid) as [m|]; [|reflexivity].
      pose proof (close_long_position_keeps_cache r
                    (current_position_size (glob w)) m
                    (fresh_order_id micros) w) as Hc.
      destruct (close_long_position _ _ r _ m _ w) as [[] w1];
        exact Hc.
    + destruct (gtb _ _); [|reflexivity].
      destruct (usable_mid mid) as [m|]; [destruct (ltb _ _)|];
        reflexivity.
  - exact Hok.
  - unfold begin_cycle.
    destruct (negb healthy && negb restarted); [exact Hok|].
    destruct book as [m|]; [|exact Hok].
    destruct (price_changed _ m); [|exact Hok].
    pose proof (price_state_is_load_state now fs m (order_side (glob w))
                  (glob w)) as Hs.
    pose proof (load_keeps_cache_ok float_of_str PARAMS_DIR MARKET_SYMBOL
                  now fs (glob w) Hok) as Hl.
    rewrite <- Hs in Hl. unfold cache_ok in Hl.
    destruct (calculate_order_price _ _ _ _ now fs m _ (glob w)) as [op g'].
    cbn [snd] in Hl. destruct op as [[price|]|]; exact Hl.
  - unfold requote.
    destruct (current_order_id (glob w)); [destruct changed|];
      rewrite ?cancel_order_keeps_cache; exact Hok.
  - assert (avellaneda_params
              (glob (snd (place_phase USE_DYNAMIC_SIZING AMOUNT_TICK_SIZE
                            PRICE_TICK_SIZE micros r mid price w)))
            = avellaneda_params (glob w)) as ->; [|exact Hok].
    unfold place_phase.
    destruct (current_order_id (glob w)); [reflexivity|].
    destruct (order_size _ mid (glob w)) as [amt|]; [|reflexivity].
    destruct (gtb amt (Fin 0)); [|reflexivity].
    destruct (place_order _ _ r _ price _ amt _) as [[ok w2]|] eqn:Epl;
      [|reflexivity].
    pose proof (place_order_keeps_cache _ _ _ _ _ _ _ _ Epl) as Hc.
    destruct ok; exact Hc.
  - exact Hok.
  - unfold timeout_cancel.
    destruct (current_order_id (glob w));
      rewrite ?cancel_order_keeps_cache; exact Hok.
  - assert (avellaneda_params (reconcile_side mid (glob w))
            = avellaneda_params (glob w)) as Hr
        by (unfold reconcile_side; split_matches; reflexivity).
    cbn. rewrite Hr. exact Hok.
  - rewrite deliver_keeps_cache. exact Hok.
  - unfold cleanup.
    destruct (current_order_id (glob w));
      rewrite ?cancel_order_keeps_cache; exact Hok.
Qed.

(** In every reachable state the cache is empty or holds validated
    parameters. *)
Lemma reachable_cache_ok (c : pc * world) :
  reachable float_of_str ACCOUNT_INDEX market_key PARAMS_DIR MARKET_SYMBOL
    REQUIRE_PARAMS USE_DYNAMIC_SIZING AMOUNT_TICK_SIZE PRICE_TICK_SIZE
    CLOSE_LONG_ON_STARTUP c ->
  cache_ok float_of_str (glob (snd c)).
Proof.
  induction 1 as [|c c' _ IH Hstep].
  - exact I.
  - exact (step_keeps_cache_ok c c' IH Hstep).
Qed.

End CacheFacts.

(** ** The order-book cache *)

Section OrderBookFacts.

Variable float_of_str : string -> option pyfloat.
Variable MARKET_ID : Z.

Local Abbreviation update := (on_order_book_update float_of_str MARKET_ID).
Local Abbreviation price_at := (best_price float_of_str).
Local Abbreviation read := (read_book float_of_str).

Lemma read_book_dict (kv : list (string * json)) :
  read (JObj kv) =
  if json_truthy (book_side kv "bids") && json_truthy (book_side kv "asks")
  then
    match price_at (book_side kv "bids"), price_at (book_side kv "asks") with
    | Some b, Some a =>
        match mid_of b a with
        | Some mid => Some (Some mid)
        | None => None
        end
    | _, _ => None
    end
  else Some None.
Proof.
  unfold read_book, py_get, attempt, book_side.
  destruct (_ && _); [|reflexivity].
  destruct (price_at _); [|reflexivity].
  destruct (price_at _); reflexivity.
Qed.

Lemma book_mid_dict (kv : list (string * json)) :
  book_mid float_of_str (Some (JObj kv)) =
  if json_truthy (book_side kv "bids") && json_truthy (book_side kv "asks")
  then
    match price_at (book_side kv "bids"), price_at (book_side kv "asks") with
    | Some b, Some a =>
        match mid_of b a with
        | Some mid => Mid mid
        | None => MidRaises
        end
    | _, _ => MidRaises
    end
  else NoMid.
Proof.
  unfold book_mid, py_get, attempt, book_side.
  destruct (json_truthy _); destruct (json_truthy _); reflexivity.
Qed.

Lemma mid_of_fin (b a : Q) : mid_of (Fin b) (Fin a) = Some (Fin ((b + a) / 2)).
Proof. reflexivity. Qed.

(** X1: once an update for the configured market carried a book with two
    non-empty sides whose best prices convert to [b] and [a], the mid
    [(b + a) / 2] is what [get_current_mid_price] returns at every later
    time, fresh or stale, until the next update; the stream is marked healthy
    and the update time recorded. *)
Theorem two_sided_book_mid_always_available
    (now later : Q) (kv : list (string * json)) (m : market) (b a : Q) :
  json_truthy (book_side kv "bids") = true ->
  json_truthy (book_side kv "asks") = true ->
  price_at (book_side kv "bids") = Some (Fin b) ->
  price_at (book_side kv "asks") = Some (Fin a) ->
  let m' := update now MARKET_ID (JObj kv) m in
  get_current_mid_price float_of_str later m' = Mid (Fin ((b + a) / 2)) /\
  ws_connection_healthy m' = true /\
  last_order_book_update m' = now /\
  latest_order_book m' = Some (JObj kv).
Proof.
  intros Hb Ha Hpb Hpa. cbv zeta. unfold on_order_book_update.
  rewrite Z.eqb_refl, read_book_dict, Hb, Ha, Hpb, Hpa, mid_of_fin.
  cbn [andb]. repeat split. unfold get_current_mid_price.
  cbn [current_mid_price_cached last_order_book_update latest_order_book].
  destruct (Qlt_bool _ 10); [reflexivity|].
  rewrite book_mid_dict, Hb, Ha, Hpb, Hpa, mid_of_fin. reflexivity.
Qed.

(** X2: an update whose book has an empty side replaces the book and the
    update time but keeps the cached mid.  A mid cached earlier is therefore
    served for ten more seconds after that update, and no mid is available
    once they have passed. *)
Theorem one_sided_book_keeps_cached_mid
    (now later : Q) (kv : list (string * json)) (m : market) (cached : pyfloat) :
  json_truthy (book_side kv "bids") && json_truthy (book_side kv "asks")
  = false ->
  current_mid_price_cached m = Some cached ->
  let m' := update now MARKET_ID (JObj kv) m in
  m' = mkMarket (Some (JObj kv)) true true now (Some cached) /\
  (later - now < 10 ->
   get_current_mid_price float_of_str later m' = Mid cached) /\
  (10 <= later - now ->
   get_current_mid_price float_of_str later m' = NoMid).
Proof.
  intros Hside Hc. cbv zeta. unfold on_order_book_update.
  rewrite Z.eqb_refl, read_book_dict, Hside, Hc.
  split; [reflexivity|].
  unfold get_current_mid_price. cbn [current_mid_price_cached
    last_order_book_update latest_order_book].
  split; intro H.
  - apply Qlt_bool_iff in H. rewrite H. reflexivity.
  - apply Qlt_bool_false_iff in H. rewrite H.
    rewrite book_mid_dict, Hside. reflexivity.
Qed.

Lemma mid_of_some (b a : pyfloat) : exists mid, mid_of b a = Some mid.
Proof.
  unfold mid_of, div. cbn.
  destruct (add b a); cbn; eauto.
Qed.

(** The update raises exactly when the book is not a dict or a best price of
    a two-sided book does not convert. *)
Lemma read_book_none (book : json) :
  read book = None <->
  is_dict book = false \/
  exists kv,
    book = JObj kv /\
    json_truthy (book_side kv "bids") && json_truthy (book_side kv "asks")
    = true /\
    (price_at (book_side kv "bids") = None \/
     price_at (book_side kv "asks") = None).
Proof.
  destruct book as [| | | | | |kv];
    try (split; [intros _; left; reflexivity | reflexivity]).
  rewrite read_book_dict. split.
  - intro H. right. exists kv. split; [reflexivity|].
    destruct (_ && _); [|discriminate]. split; [reflexivity|].
    destruct (price_at (book_side kv "bids")) as [pb|]; [|auto].
    destruct (price_at (book_side kv "asks")) as [pa|]; [|auto].
    destruct (mid_of_some pb pa) as (mid & Hm). rewrite Hm in H. discriminate.
  - intros [H | (kv' & [= <-] & Ht & Hp)]; [discriminate|].
    rewrite Ht. destruct Hp as [Hp | Hp]; rewrite Hp; [reflexivity|].
    destruct (price_at (book_side kv "bids")); reflexivity.
Qed.

(** X3: an update that raises (the book is not a dict, or a best price of a
    two-sided book does not convert) leaves the cached book, mid and update
    time as they were and only marks the stream unhealthy, so that the next
    health check fails whatever the time and the task state. *)
Theorem malformed_book_marks_unhealthy
    (now later : Q) (task : task_state) (book : json) (m : market) :
  (is_dict book = false \/
   exists kv,
     book = JObj kv /\
     json_truthy (book_side kv "bids") && json_truthy (book_side kv "asks")
     = true /\
     (price_at (book_side kv "bids") = None \/
      price_at (book_side kv "asks") = None)) ->
  let m' := update now MARKET_ID book m in
  m' = set_ws_connection_healthy false m /\
  fst (check_websocket_health later task m') = false.
Proof.
  intro Hbad. apply read_book_none in Hbad as Hr.
  cbv zeta. unfold on_order_book_update.
  rewrite Z.eqb_refl, Hr. split; [reflexivity|].
  unfold check_websocket_health. cbn.
  destruct (Qlt_bool 30 _); [reflexivity|].
  destruct task; reflexivity.
Qed.

(** X4: after an update that did not raise, the health check succeeds, and
    leaves the state alone, exactly as long as no more than thirty seconds
    have passed and the stream task has not finished. *)
Theorem health_after_update
    (now later : Q) (task : task_state) (book : json) (m : market)
    (new_mid : option pyfloat) :
  read book = Some new_mid ->
  let m' := update now MARKET_ID book m in
  (fst (check_websocket_health later task m') = true <->
   later - now <= 30 /\ forall failed, task <> TaskDone failed) /\
  (fst (check_websocket_health later task m') = true ->
   snd (check_websocket_health later task m') = m').
Proof.
  intro Hr. cbv zeta. unfold on_order_book_update.
  rewrite Z.eqb_refl, Hr. unfold check_websocket_health.
  cbn [last_order_book_update ws_connection_healthy].
  destruct (Qlt_bool 30 (later - now)) eqn:E; qprop.
  - split; [split|]; cbn; try discriminate.
    intros [H _]. lra.
  - destruct task as [| |failed]; cbn; split; try split; auto;
      try discriminate; try (intros _; split; [exact E | discriminate]).
    intros [_ H]. exfalso. exact (H failed eq_refl).
Qed.

End OrderBookFacts.

(** ** Tick sizes and scaling *)

Lemma scaled_finite_ok (x tick : Q) :
  0 < tick -> exists n, scaled (Fin x) tick = Ok n.
Proof.
  intro Ht. unfold scaled, div.
  assert (Qeq_bool tick 0 = false) as ->
      by (apply Qeq_bool_false_iff; intro E; rewrite E in Ht; lra).
  cbn. eauto.
Qed.

Section MarketDetailsFacts.

Variable upper : string -> string.

Lemma tick_of_decimals_pos (d : Z) : 0 < tick_of_decimals d.
Proof.
  unfold tick_of_decimals. apply Qpower_0_lt. reflexivity.
Qed.

Lemma find_market_some
    (symbol : string) (obs : list order_book_info) (id : Z) (pt at' : Q) :
  find_market upper symbol obs = Some (id, pt, at') ->
  exists before ob after,
    obs = (before ++ ob :: after)%list /\
    (forall o, In o before ->
               String.eqb (upper (ob_symbol o)) (upper symbol) = false) /\
    String.eqb (upper (ob_symbol ob)) (upper symbol) = true /\
    id = ob_market_id ob /\
    pt = tick_of_decimals (supported_price_decimals ob) /\
    at' = tick_of_decimals (supported_size_decimals ob).
Proof.
  induction obs as [|o rest IH]; cbn; [discriminate|].
  destruct (String.eqb (upper (ob_symbol o)) (upper symbol)) eqn:E.
  - intros [= <- <- <-]. exists [], o, rest. repeat split; auto.
    intros o' [].
  - intro H. destruct (IH H) as (before & ob & after & -> & Hb & Hm & Hrest).
    exists (o :: before), ob, after. split; [reflexivity|].
    split; [|auto]. intros o' [<- | Hin]; auto.
Qed.

(** X6: the market details are those of the first entry whose symbol matches
    case-insensitively; both tick sizes are positive, so with them
    [place_order] never raises on a finite price and amount; without a
    matching entry, or when the lookup raises, there are no details. *)
Theorem market_details_first_match
    (response : option (list order_book_info)) (symbol : string) :
  (forall id pt at',
      get_market_details upper response symbol = Some (id, pt, at') ->
      0 < pt /\ 0 < at' /\
      (exists obs before ob after,
          response = Some obs /\
          obs = (before ++ ob :: after)%list /\
          (forall o, In o before ->
                     String.eqb (upper (ob_symbol o)) (upper symbol) = false) /\
          String.eqb (upper (ob_symbol ob)) (upper symbol) = true /\
          id = ob_market_id ob /\
          pt = tick_of_decimals (supported_price_decimals ob) /\
          at' = tick_of_decimals (supported_size_decimals ob)) /\
      (forall r s (price amt : Q) oid w,
          exists ok w',
            place_order at' pt r s (Fin price) oid (Fin amt) w
            = Ok (ok, w'))) /\
  (get_market_details upper response symbol = None <->
   response = None \/
   exists obs,
     response = Some obs /\
     forall o, In o obs ->
               String.eqb (upper (ob_symbol o)) (upper symbol) = false).
Proof.
  split.
  - intros id pt at' H. destruct response as [obs|]; [|discriminate].
    cbn in H.
    destruct (find_market_some symbol obs id pt at' H)
      as (before & ob & after & Hobs & Hb & Hm & Hid & Hpt & Hat).
    assert (0 < pt) as Hp by (rewrite Hpt; apply tick_of_decimals_pos).
    assert (0 < at') as Ha by (rewrite Hat; apply tick_of_decimals_pos).
    split; [exact Hp|]. split; [exact Ha|]. split.
    + exists obs, before, ob, after. repeat split; auto.
    + intros r s price amt oid w. unfold place_order.
      destruct (scaled_finite_ok amt at' Ha) as (n & ->).
      destruct (scaled_finite_ok price pt Hp) as (k & ->).
      cbn [bind]. destruct r; eauto.
  - destruct response as [obs|]; cbn.
    2:{ split; [auto | reflexivity]. }
    split.
    + intro H. right. exists obs. split; [reflexivity|].
      induction obs as [|o rest IH]; [intros o' []|].
      cbn in H.
      destruct (String.eqb (upper (ob_symbol o)) (upper symbol)) eqn:E;
        [discriminate|].
      intros o' [<- | Hin]; auto.
    + intros [H | (obs' & [= <-] & H)]; [discriminate|].
      induction obs as [|o rest IH]; [reflexivity|].
      cbn. rewrite (H o (or_introl eq_refl)).
      apply IH. intros o' Hin. apply H. right. exact Hin.
Qed.

End MarketDetailsFacts.

(** ** What the order functions do to the globals *)

Lemma cancel_order_glob (r : reply) (id : Z) (w : world) :
  glob (snd (cancel_order r id w)) =
  (if fst (cancel_order r id w)
   then set_current_order_id None (glob w)
   else glob w) /\
  (fst (cancel_order r id w) = true <-> r = Ack) /\
  requests (snd (cancel_order r id w)) = (requests w ++ [CancelAllOrders])%list.
Proof.
  destruct r; cbn; repeat split; congruence.
Qed.

Section OrderFacts.

Variable AMOUNT_TICK_SIZE : Q.
Variable PRICE_TICK_SIZE : Q.

Lemma place_order_glob
    (r : reply) (s : side) (price : pyfloat) (id : Z) (amt : pyfloat)
    (w w' : world) (ok : bool) :
  place_order AMOUNT_TICK_SIZE PRICE_TICK_SIZE r s price id amt w
  = Ok (ok, w') ->
  glob w' = (if ok then set_current_order_id (Some id) (glob w) else glob w) /\
  (ok = true <-> r = Ack) /\
  exists b p,
    requests w' =
    (requests w ++ [CreateOrder id b p (side_eqb s Sell) (side_eqb s Sell)])%list.
Proof.
  unfold place_order.
  destruct (scaled amt AMOUNT_TICK_SIZE) as [b|]; cbn [bind]; [|discriminate].
  destruct (scaled price PRICE_TICK_SIZE) as [p|]; cbn [bind]; [|discriminate].
  destruct r; intros [= <- <-]; cbn; repeat split; try congruence; eauto.
Qed.

Lemma close_long_position_glob
    (r : reply) (pos mid : pyfloat) (id : Z) (w : world) :
  let c := close_long_position AMOUNT_TICK_SIZE PRICE_TICK_SIZE r pos mid id w in
  glob (snd c) =
  (if fst c then set_current_order_id (Some id) (glob w) else glob w) /\
  (requests (snd c) = requests w \/
   exists b p,
     requests (snd c) = (requests w ++ [CreateOrder id b p true true])%list).
Proof.
  cbv zeta. unfold close_long_position.
  destruct (bind _ _) as [[b p]|]; [|cbn; auto].
  destruct r; cbn; split; eauto.
Qed.

End OrderFacts.

Lemma fresh_order_id_range (micros : Z) :
  (0 <= fresh_order_id micros < 1000000)%Z.
Proof.
  unfold fresh_order_id. apply Z.mod_pos_bound. reflexivity.
Qed.

(** ** Stream deliveries and the quoting state *)

Section DeliveryFacts.

Variable float_of_str : string -> option pyfloat.
Variable ACCOUNT_INDEX : Z.
Variable market_key : string.

Lemma user_stats_result (a : Z) (stats : json) (g g' : globals) :
  on_user_stats_update float_of_str ACCOUNT_INDEX a stats g = Ok g' ->
  g' = g \/ exists x y, g' = set_capital x y g.
Proof.
  unfold on_user_stats_update.
  destruct (Z.eqb a ACCOUNT_INDEX); [|cbn; intros [= <-]; auto].
  destruct (py_get stats "available_balance" (JNum (Fin 0))) as [x|[]];
    cbn; try discriminate; try (intros [= <-]; auto).
  destruct (py_float float_of_str x) as [fx|[]];
    cbn; try discriminate; try (intros [= <-]; auto).
  destruct (py_get stats "portfolio_value" (JNum (Fin 0))) as [y|[]];
    cbn; try discriminate; try (intros [= <-]; auto).
  destruct (py_float float_of_str y) as [fy|[]];
    cbn; try discriminate; try (intros [= <-]; auto).
  destruct (_ && _); cbn; intros [= <-]; eauto.
Qed.

Lemma account_all_result (a : Z) (data : json) (g : globals) :
  on_account_all_update float_of_str ACCOUNT_INDEX market_key a data g = g \/
  exists size,
    on_account_all_update float_of_str ACCOUNT_INDEX market_key a data g
    = set_current_position_size size g.
Proof.
  unfold on_account_all_update.
  destruct (Z.eqb a ACCOUNT_INDEX); [|auto].
  destruct (bind _ _) as [sz|]; [|auto].
  destruct (neqb sz (current_position_size g)); eauto.
Qed.

Lemma deliver_keeps_last_mid (m : stream_msg) (w : world) :
  last_mid_price (glob (deliver float_of_str ACCOUNT_INDEX market_key m w))
  = last_mid_price (glob w).
Proof.
  destruct m as [stats|data]; unfold deliver.
  - destruct (on_user_stats_update _ _ _ stats (glob w)) as [g'|] eqn:E;
      [|reflexivity].
    destruct (user_stats_result _ _ _ _ E) as [-> | (x & y & ->)];
      reflexivity.
  - destruct (account_all_result ACCOUNT_INDEX data (glob w))
      as [H | (size & H)]; cbn [with_glob glob]; rewrite H; reflexivity.
Qed.

(** X7: a message handed to either stream handler changes at most the cached
    capital, portfolio value and position: the recorded order id, the side,
    the last quoted mid, the last order size and the parameter cache are left
    alone, and nothing is sent, acknowledged or logged as an order event. *)
Theorem deliveries_leave_order_state (m : stream_msg) (w : world) :
  let w' := deliver float_of_str ACCOUNT_INDEX market_key m w in
  current_order_id (glob w') = current_order_id (glob w) /\
  order_side (glob w') = order_side (glob w) /\
  last_mid_price (glob w') = last_mid_price (glob w) /\
  last_order_base_amount (glob w') = last_order_base_amount (glob w) /\
  avellaneda_params (glob w') = avellaneda_params (glob w) /\
  last_avellaneda_update (glob w') = last_avellaneda_update (glob w) /\
  requests w' = requests w /\
  acked w' = acked w /\
  log w' = log w.
Proof.
  cbv zeta. destruct m as [stats|data]; unfold deliver.
  - destruct (on_user_stats_update _ _ _ stats (glob w)) as [g'|] eqn:E;
      [|repeat split].
    destruct (user_stats_result _ _ _ _ E) as [-> | (x & y & ->)];
      repeat split.
  - destruct (account_all_result ACCOUNT_INDEX data (glob w))
      as [H | (size & H)]; cbn [with_glob glob requests acked log];
      rewrite H; repeat split.
Qed.

End DeliveryFacts.

(** ** Position updates *)

Section PositionFacts.

Variable float_of_str : string -> option pyfloat.
Variable ACCOUNT_INDEX : Z.
Variable market_key : string.

Local Abbreviation on_update :=
  (on_account_all_update float_of_str ACCOUNT_INDEX market_key ACCOUNT_INDEX).

Lemma settle_position (new_size : pyfloat) (x : Q) (g : globals) :
  is_number new_size x ->
  is_number
    (current_position_size
       (if neqb new_size (current_position_size g)
        then set_current_position_size new_size g
        else g)) x.
Proof.
  intro H. destruct (neqb new_size (current_position_size g)) eqn:E;
    [exact H|].
  destruct new_size as [q| | |]; try contradiction.
  destruct (current_position_size g) as [q'| | |]; try discriminate.
  cbn in *. apply negb_false_iff in E. qprop. rewrite <- E. exact H.
Qed.

(** X8: an account update for the tracked account whose positions have no
    entry for the market, or an empty one, sets the position to zero; an
    entry whose [position] converts to a finite number sets it to that
    number; an update for another account changes nothing; and in every case
    only the cached position can change. *)
Theorem position_update
    (kv : list (string * json)) (pk : list (string * json)) (g : globals) :
  positions_of kv = JObj pk ->
  (dict_get pk market_key = None ->
   is_number (current_position_size (on_update (JObj kv) g)) 0) /\
  (forall entry,
      dict_get pk market_key = Some entry ->
      json_truthy entry = false ->
      is_number (current_position_size (on_update (JObj kv) g)) 0) /\
  (forall ekv x,
      dict_get pk market_key = Some (JObj ekv) ->
      ekv <> [] ->
      py_float float_of_str
        (match dict_get ekv "position" with
         | Some v => v
         | None => JNum (Fin 0)
         end) = Ok (Fin x) ->
      is_number (current_position_size (on_update (JObj kv) g)) x) /\
  (forall data,
      set_current_position_size (current_position_size (on_update data g)) g
      = on_update data g) /\
  (forall other data,
      other <> ACCOUNT_INDEX ->
      on_account_all_update float_of_str ACCOUNT_INDEX market_key other data g
      = g).
Proof.
  intro Hpos.
  assert (forall data,
             set_current_position_size
               (current_position_size (on_update data g)) g
             = on_update data g) as Hframe.
  { intro data.
    destruct (account_all_result float_of_str ACCOUNT_INDEX market_key
                ACCOUNT_INDEX data g) as [-> | (size & ->)];
      destruct g; reflexivity. }
  unfold positions_of in Hpos.
  split; [|split; [|split; [|split; [exact Hframe|]]]].
  - intro Hnone. unfold on_account_all_update, py_get.
    rewrite Z.eqb_refl, Hpos. cbn [bind]. rewrite Hnone. cbn [json_truthy].
    apply settle_position. reflexivity.
  - intros entry Hsome Hfalsy. unfold on_account_all_update, py_get.
    rewrite Z.eqb_refl, Hpos. cbn [bind]. rewrite Hsome, Hfalsy.
    apply settle_position. reflexivity.
  - intros ekv x Hsome Hne Hfl. unfold on_account_all_update, py_get.
    rewrite Z.eqb_refl, Hpos. cbn [bind]. rewrite Hsome.
    destruct ekv as [|kx ekv']; [congruence|]. cbn [json_truthy bind].
    rewrite Hfl. apply settle_position. reflexivity.
  - intros other data Hne. unfold on_account_all_update.
    destruct (Z.eqb_spec other ACCOUNT_INDEX); [contradiction | reflexivity].
Qed.

End PositionFacts.

(** ** Requests and the last quoted mid along a run *)

Section RunFacts.

Variable float_of_str : string -> option pyfloat.
Variable ACCOUNT_INDEX : Z.
Variable market_key : string.
Variable PARAMS_DIR : string.
Variable MARKET_SYMBOL : string.
Variable REQUIRE_PARAMS : bool.
Variable USE_DYNAMIC_SIZING : bool.
Variable AMOUNT_TICK_SIZE : Q.
Variable PRICE_TICK_SIZE : Q.
Variable CLOSE_LONG_ON_STARTUP : bool.

Local Abbreviation steps :=
  (step float_of_str ACCOUNT_INDEX market_key PARAMS_DIR MARKET_SYMBOL
     REQUIRE_PARAMS USE_DYNAMIC_SIZING AMOUNT_TICK_SIZE PRICE_TICK_SIZE
     CLOSE_LONG_ON_STARTUP).
Local Abbreviation reach :=
  (reachable float_of_str ACCOUNT_INDEX market_key PARAMS_DIR MARKET_SYMBOL
     REQUIRE_PARAMS USE_DYNAMIC_SIZING AMOUNT_TICK_SIZE PRICE_TICK_SIZE
     CLOSE_LONG_ON_STARTUP).

Lemma summary_quiet (w w' : world) :
  requests w' = requests w ->
  last_mid_price (glob w') = last_mid_price (glob w) ->
  current_order_id (glob w') = current_order_id (glob w) ->
  step_summary w w'.
Proof.
  intros Hr Hl Hi. split; [|auto].
  exists []. rewrite app_nil_r. auto.
Qed.

Lemma summary_cancel (r : reply) (id : Z) (w : world) :
  step_summary w (snd (cancel_order r id w)).
Proof.
  split; [|split].
  - exists [CancelAllOrders]. split; [destruct r; reflexivity|].
    constructor; [exact I | constructor].
  - left. destruct r; reflexivity.
  - destruct r; cbn; auto.
Qed.

Lemma summary_close (r : reply) (pos m : pyfloat) (micros : Z) (w : world) :
  let c := close_long_position AMOUNT_TICK_SIZE PRICE_TICK_SIZE r pos m
             (fresh_order_id micros) w in
  step_summary w
    (if fst c
     then with_glob (fun g => set_last_mid_price (Some m)
                                (set_order_side Sell g)) (snd c)
     else snd c).
Proof.
  cbv zeta.
  destruct (close_long_position_glob AMOUNT_TICK_SIZE PRICE_TICK_SIZE r pos m
              (fresh_order_id micros) w) as [Hg Hr].
  assert (exists l,
             requests (snd (close_long_position AMOUNT_TICK_SIZE
                              PRICE_TICK_SIZE r pos m (fresh_order_id micros) w))
             = (requests w ++ l)%list /\ Forall good_request l) as Hreq.
  { destruct Hr as [Hr | (b & p & Hr)].
    - exists []. rewrite app_nil_r. auto.
    - exists [CreateOrder (fresh_order_id micros) b p true true].
      split; [exact Hr|]. constructor; [|constructor].
      split; [apply fresh_order_id_range | reflexivity]. }
  destruct (fst (close_long_position _ _ r pos m _ w)) eqn:E.
  - split; [exact Hreq|]. split; [right|right; right]; eexists; reflexivity.
  - split; [exact Hreq|]. rewrite Hg. auto.
Qed.

Lemma step_summarised (c c' : pc * world) :
  steps c c' -> step_summary (snd c) (snd c').
Proof.
  intro Hstep.
  destruct Hstep
    as [r w | mid micros r w | w Hz | healthy restarted book now fs w
        | r mid price changed w | micros r mid price w | mid w | r mid w
        | mid w | m p w Hrun | r p w Hrun];
    cbn [fst snd].
  - unfold boot. split; [|destruct r; cbn; auto].
    exists [CancelAllOrders]. split; [destruct r; reflexivity|].
    constructor; [exact I | constructor].
  - unfold start_trading. destruct CLOSE_LONG_ON_STARTUP.
    + destruct (gtb _ _); [|apply summary_quiet; reflexivity].
      destruct (usable_mid mid) as [m|]; [|apply summary_quiet; reflexivity].
      pose proof (summary_close r (current_position_size (glob w)) m micros w)
        as Hs. cbv zeta in Hs.
      destruct (close_long_position _ _ r _ m _ w) as [[] w1]; exact Hs.
    + destruct (gtb _ _); [|apply summary_quiet; reflexivity].
      destruct (usable_mid mid) as [m|]; [destruct (ltb _ _)|];
        apply summary_quiet; reflexivity.
  - apply summary_quiet; reflexivity.
  - unfold begin_cycle.
    destruct (negb healthy && negb restarted);
      [apply summary_quiet; reflexivity|].
    destruct book as [m|]; [|apply summary_quiet; reflexivity].
    destruct (price_changed _ m); [|apply summary_quiet; reflexivity].
    pose proof (price_keeps_quoting_state float_of_str PARAMS_DIR
                  MARKET_SYMBOL REQUIRE_PARAMS now fs m
                  (order_side (glob w)) (glob w)) as Hk.
    cbv zeta in Hk.
    destruct (calculate_order_price _ _ _ _ now fs m _ (glob w)) as [op g'].
    cbn [snd] in Hk. destruct Hk as (Hi & Hl & _).
    destruct op as [[price|]|]; apply summary_quiet; cbn; auto.
  - unfold requote.
    destruct (current_order_id (glob w)); [destruct changed|];
      try (apply summary_quiet; reflexivity).
    apply summary_cancel.
  - unfold place_phase.
    destruct (current_order_id (glob w)) eqn:Hid;
      [apply summary_quiet; reflexivity|].
    destruct (order_size _ mid (glob w)) as [amt|];
      [|apply summary_quiet; reflexivity].
    destruct (gtb amt (Fin 0)); [|apply summary_quiet; reflexivity].
    destruct (place_order _ _ r _ price _ amt _) as [[ok w2]|] eqn:Epl;
      [|apply summary_quiet; cbn; auto].
    destruct (place_order_glob _ _ _ _ _ _ _ _ _ _ Epl)
      as (Hg & _ & b & p & Hr).
    cbn [requests glob with_glob] in Hr, Hg.
    assert (exists l,
               requests w2 = (requests w ++ l)%list /\ Forall good_request l)
      as Hreq.
    { eexists. split; [exact Hr|]. constructor; [|constructor].
      split; [apply fresh_order_id_range | reflexivity]. }
    destruct ok; cbn [snd].
    + split; [exact Hreq|].
      split; [right|right; right]; eexists; reflexivity.
    + split; [exact Hreq|]. rewrite Hg. cbn. rewrite Hid. auto.
  - apply summary_quiet; reflexivity.
  - unfold timeout_cancel.
    destruct (current_order_id (glob w));
      [apply summary_cancel | apply summary_quiet; reflexivity].
  - apply summary_quiet; cbn; [reflexivity | |].
    + unfold reconcile_side. split_matches; reflexivity.
    + apply reconcile_side_keeps_order.
  - apply summary_quiet.
    + apply deliver_requests.
    + apply deliver_keeps_last_mid.
    + destruct (deliver_effect float_of_str ACCOUNT_INDEX market_key m w)
        as [Hr Ha Hi | Hr Ha Hi | Hr Ha Hi | i b p' a ro Hr Ha Hi
           | i b p' a ro Hr Ha Hi]; try assumption;
        exfalso; rewrite deliver_requests in Hr;
        symmetry in Hr; exact (app_one_neq _ _ Hr).
  - unfold cleanup.
    destruct (current_order_id (glob w));
      [apply summary_cancel | apply summary_quiet; reflexivity].
Qed.

(** X9: in every reachable state each order request sent so far carries a
    client id in [0, 1000000) and is reduce-only exactly when it is an ask;
    the very first request of a run is the clean-slate cancel-all. *)
Theorem requests_well_formed (c : pc * world) :
  reach c ->
  Forall good_request (requests (snd c)) /\
  ((fst c = Boot /\ requests (snd c) = []) \/
   exists rest, requests (snd c) = CancelAllOrders :: rest).
Proof.
  induction 1 as [|c c' Hreach [IHg IHf] Hstep].
  - split; [constructor | left; split; reflexivity].
  - destruct (step_summarised c c' Hstep) as ((l & Hr & Hl) & _).
    split.
    + rewrite Hr. apply Forall_app. split; assumption.
    + right. destruct IHf as [[Hb He] | (rest & He)].
      * destruct c as [p w]. cbn [fst snd] in *. subst p.
        inversion Hstep; subst; try discriminate.
        unfold boot.
        match goal with
        | |- context [match ?r with _ => _ end] => destruct r
        end; cbn; rewrite He; eexists; reflexivity.
      * rewrite Hr, He. eexists. reflexivity.
Qed.

(** X10: in every reachable state with an order recorded a last quoted mid
    is recorded too, so the price-change test of the loop never takes its
    no-previous-mid branch while an order is outstanding. *)
Theorem recorded_order_has_last_mid (c : pc * world) :
  reach c ->
  current_order_id (glob (snd c)) <> None ->
  last_mid_price (glob (snd c)) <> None.
Proof.
  induction 1 as [|c c' Hreach IH Hstep].
  - intro H. exfalso. apply H. reflexivity.
  - destruct (step_summarised c c' Hstep) as (_ & Hl & Hi).
    intro Hrec.
    destruct Hi as [Hi | [Hi | (m & Hm)]].
    + rewrite Hi in Hrec. specialize (IH Hrec).
      destruct Hl as [Hl | (m & Hm)]; congruence.
    + congruence.
    + congruence.
Qed.

End RunFacts.

(** ** Placing, sizing on the Sell side, and the side at startup *)

Section PlacementFacts.

Variable USE_DYNAMIC_SIZING : bool.
Variable AMOUNT_TICK_SIZE : Q.
Variable PRICE_TICK_SIZE : Q.

Local Abbreviation place :=
  (place_phase USE_DYNAMIC_SIZING AMOUNT_TICK_SIZE PRICE_TICK_SIZE).
Local Abbreviation size_at := (order_size USE_DYNAMIC_SIZING).

(** X11: the placing phase never changes the side, the cached position or
    the cached capital.  When the transport does not acknowledge, the
    recorded id and the last quoted mid stay as they were, and an iteration
    that did send the order goes straight back to the head of the loop,
    skipping the timeout and the side decision.  When it acknowledges an
    order that was sent, the iteration waits with that order's id, the
    current mid and a positive size recorded. *)
Theorem placement_outcome
    (micros : Z) (r : reply) (mid price : pyfloat) (w : world) :
  let c := place micros r mid price w in
  order_side (glob (snd c)) = order_side (glob w) /\
  current_position_size (glob (snd c)) = current_position_size (glob w) /\
  available_capital (glob (snd c)) = available_capital (glob w) /\
  (r <> Ack ->
   current_order_id (glob (snd c)) = current_order_id (glob w) /\
   last_mid_price (glob (snd c)) = last_mid_price (glob w) /\
   (requests (snd c) <> requests w -> fst c = Top)) /\
  (r = Ack ->
   requests (snd c) <> requests w ->
   fst c = Waiting mid /\
   current_order_id (glob (snd c)) = Some (fresh_order_id micros) /\
   last_mid_price (glob (snd c)) = Some mid /\
   gtb (last_order_base_amount (glob (snd c))) (Fin 0) = true).
Proof.
  cbv zeta. unfold place_phase.
  destruct (current_order_id (glob w)) eqn:Hid.
  { cbn. repeat split; auto; intros; congruence. }
  destruct (order_size _ mid (glob w)) as [amt|].
  2:{ cbn. repeat split; auto; intros; congruence. }
  destruct (gtb amt (Fin 0)) eqn:Hpos.
  2:{ cbn. repeat split; auto; intros; congruence. }
  destruct (place_order _ _ r _ price _ amt _) as [[ok w2]|] eqn:Epl.
  2:{ cbn. repeat split; auto; intros; congruence. }
  destruct (place_order_glob _ _ _ _ _ _ _ _ _ _ Epl) as (Hg & Hok & b & p & Hr).
  cbn [glob with_glob requests] in Hg, Hr.
  destruct ok; cbn [fst snd glob with_glob requests]; rewrite Hg.
  - assert (r = Ack) as -> by (apply Hok; reflexivity).
    cbn. repeat split; auto; intros; congruence.
  - assert (r <> Ack) as Hn by (intro E; apply Hok in E; discriminate).
    cbn. repeat split; auto; intros; congruence.
Qed.

(** X12: on the Sell side the size is all or nothing: the whole position when
    it is positive and worth at least 15 at the mid, and zero otherwise. *)
Theorem sell_size_all_or_nothing (g : globals) (pos mid : Q) :
  order_side g = Sell ->
  current_position_size g = Fin pos ->
  (0 < pos /\ 15 <= pos * mid -> size_at (Fin mid) g = Ok (Fin pos)) /\
  (~ (0 < pos /\ 15 <= pos * mid) -> size_at (Fin mid) g = Ok (Fin 0)).
Proof.
  intros Hs Hp. unfold order_size. rewrite Hs, Hp. cbn.
  destruct (Qlt_bool 0 pos) eqn:E0; [destruct (Qle_bool 15 (pos * mid)) eqn:E1|];
    qprop; split; intro H; try reflexivity; exfalso;
    try (apply H; split; assumption); destruct H; lra.
Qed.


(** X14: without the close-on-startup flag, startup sends nothing and enters
    the loop; with no positive position it changes nothing; with one it
    starts on Buy when the position is worth less than 15 at the mid and on
    Sell otherwise or when no mid is available; and whenever it starts on
    Sell with a mid, the size at that mid is the whole position. *)
Theorem startup_side
    (mid : option pyfloat) (micros : Z) (r : reply) (w : world) (pos : Q) :
  current_position_size (glob w) = Fin pos ->
  let c := start_trading AMOUNT_TICK_SIZE PRICE_TICK_SIZE false mid micros r w in
  fst c = Top /\
  requests (snd c) = requests w /\
  current_order_id (glob (snd c)) = current_order_id (glob w) /\
  current_position_size (glob (snd c)) = Fin pos /\
  (pos <= 0 -> snd c = w) /\
  (0 < pos -> usable_mid mid = None -> order_side (glob (snd c)) = Sell) /\
  (forall m,
      0 < pos -> usable_mid mid = Some (Fin m) ->
      (pos * m < 15 -> order_side (glob (snd c)) = Buy) /\
      (15 <= pos * m ->
       order_side (glob (snd c)) = Sell /\
       size_at (Fin m) (glob (snd c)) = Ok (Fin pos))).
Proof.
  intro Hp. cbv zeta. unfold start_trading. rewrite Hp. cbn [gtb ltb].
  destruct (Qlt_bool 0 pos) eqn:E0.
  2:{ qprop. cbn. repeat split; auto; intros; lra. }
  destruct (usable_mid mid) as [[m| | |]|] eqn:Em;
    cbn [mul]; unfold scale_inf; rewrite ?E0; cbn [ltb].
  - destruct (Qlt_bool (pos * m) 15) eqn:Ev;
      cbn [fst snd glob with_glob requests set_order_side current_order_id
           current_position_size order_side];
      qprop;
      (split; [reflexivity|]); (split; [reflexivity|]);
      (split; [reflexivity|]); (split; [exact Hp|]);
      (split; [intro; lra|]); (split; [intros _ H; discriminate|]);
      intros m' _ [= <-]; split; intro H; try lra; try reflexivity.
    split; [reflexivity|]. unfold order_size. cbn. rewrite Hp. cbn.
    assert (Qlt_bool 0 pos = true) as -> by (apply Qlt_bool_iff; exact E0).
    assert (Qle_bool 15 (pos * m) = true) as -> by (apply Qle_bool_iff; exact H).
    reflexivity.
  - qprop. cbn. repeat split; auto; try (intros; lra); intros; congruence.
  - qprop. cbn. repeat split; auto; try (intros; lra); intros; congruence.
  - qprop. cbn. repeat split; auto; try (intros; lra); intros; congruence.
  - qprop. cbn. repeat split; auto; try (intros; lra); intros; congruence.
Qed.

End PlacementFacts.

(** ** The trade ledger *)

Lemma ordpairs_snoc {A : Type} (R : A -> A -> Prop) (l : list A) (x : A) :
  ForallOrdPairs R l -> Forall (fun a => R a x) l ->
  ForallOrdPairs R (l ++ [x]).
Proof.
  induction 1 as [|a l Ha Hl IH]; intro Hx; cbn.
  - constructor; constructor.
  - inversion Hx; subst. constructor.
    + apply Forall_app. split; [exact Ha | constructor; [assumption | constructor]].
    + apply IH. assumption.
Qed.

Lemma ordpairs_tl {A : Type} (R : A -> A -> Prop) (l : list A) :
  ForallOrdPairs R l -> ForallOrdPairs R (tl l).
Proof.
  destruct 1; [constructor | assumption].
Qed.

Lemma Forall_tl {A : Type} (P : A -> Prop) (l : list A) :
  Forall P l -> Forall P (tl l).
Proof.
  destruct 1; [constructor | assumption].
Qed.

Lemma deque_append_length {A : Type} (n : nat) (d : list A) (x : A) :
  (List.length d <= n)%nat -> (List.length (deque_append n d x) <= n)%nat.
Proof.
  intro H. unfold deque_append.
  destruct (Nat.ltb (List.length d) n) eqn:E.
  - apply Nat.ltb_lt in E. rewrite length_app. cbn. lia.
  - destruct n as [|n']; [exact H|].
    rewrite length_app. cbn. destruct d; cbn in *; lia.
Qed.

Section LedgerFacts.

Variable py_eq : json -> json -> bool.
Variable sort_by_timestamp_desc : list json -> res (list json).

Local Abbreviation known := (in_ledger py_eq).
Local Abbreviation merge := (merge_trades py_eq).
Local Abbreviation distinct := (distinct_trades py_eq).

Lemma unknown_forall (trade : json) (recent : list json) :
  known trade recent = false ->
  Forall (fun item => py_eq item trade = false) recent.
Proof.
  unfold in_ledger. induction recent as [|item rest IH]; cbn; intro H.
  - constructor.
  - apply orb_false_iff in H as [H1 H2]. constructor; auto.
Qed.

Lemma deque_append_distinct (recent : list json) (trade : json) :
  distinct recent -> known trade recent = false ->
  distinct (deque_append 20 recent trade).
Proof.
  intros Hd Hk. unfold deque_append, distinct_trades in *.
  pose proof (unknown_forall trade recent Hk) as Hf.
  destruct (Nat.ltb (List.length recent) 20).
  - apply ordpairs_snoc; assumption.
  - apply ordpairs_snoc; [apply ordpairs_tl | apply Forall_tl]; assumption.
Qed.

Lemma merge_keeps_ledger (batch recent : list json) :
  (List.length recent <= 20)%nat -> distinct recent ->
  (List.length (fst (merge batch recent)) <= 20)%nat /\
  distinct (fst (merge batch recent)).
Proof.
  revert recent. induction batch as [|trade rest IH]; intros recent Hl Hd.
  - cbn. auto.
  - cbn. destruct (known trade recent) eqn:Hk; [apply IH; assumption|].
    pose proof (deque_append_length 20 recent trade Hl) as Hl'.
    pose proof (deque_append_distinct recent trade Hd Hk) as Hd'.
    destruct (is_dict trade); [apply IH; assumption | cbn; auto].
Qed.

Lemma merge_known (batch recent : list json) :
  Forall (fun trade => known trade recent = true) batch ->
  merge batch recent = (recent, None).
Proof.
  induction 1 as [|trade rest Hk _ IH]; [reflexivity|].
  cbn. rewrite Hk. exact IH.
Qed.

(** X15: a trades update keeps the ledger within twenty entries and, when no
    entry equalled a later one before, none does afterwards, whether or not
    the update raises; trades that are all in the ledger already leave it as
    it is. *)
Theorem ledger_bounded_and_distinct (data : json) (recent : list json) :
  (List.length recent <= 20)%nat ->
  distinct recent ->
  let after := fst (update_recent_trades py_eq sort_by_timestamp_desc
                      data recent) in
  (List.length after <= 20)%nat /\
  distinct after /\
  (forall batch,
      Forall (fun trade => known trade recent = true) batch ->
      merge batch recent = (recent, None)).
Proof.
  intros Hl Hd. cbv zeta.
  split; [|split; [|exact (fun b H => merge_known b recent H)]].
  - unfold update_recent_trades.
    destruct (py_get data "trades" (JObj [])) as [v|]; [|exact Hl].
    destruct (json_truthy v); [|exact Hl].
    destruct v; try exact Hl.
    destruct (bind _ _) as [sorted|]; [|exact Hl].
    apply merge_keeps_ledger; assumption.
  - unfold update_recent_trades.
    destruct (py_get data "trades" (JObj [])) as [v|]; [|exact Hd].
    destruct (json_truthy v); [|exact Hd].
    destruct v; try exact Hd.
    destruct (bind _ _) as [sorted|]; [|exact Hd].
    apply merge_keeps_ledger; assumption.
Qed.

End LedgerFacts.

(** ** Serving and emptying the parameter cache *)

Section CachingFacts.

Variable float_of_str : string -> option pyfloat.
Variable PARAMS_DIR : string.
Variable MARKET_SYMBOL : string.

Local Abbreviation load :=
  (load_avellaneda_parameters float_of_str PARAMS_DIR MARKET_SYMBOL).

(** X16: a load that fails, for whatever reason, leaves the cache empty, so
    the next call reads the files again; a load that read a file
    successfully is answered from the cache, files unread and state
    unchanged, at every time less than 900 s later. *)
Theorem load_caching (now : Q) (fs : string -> file_read) (g g1 : globals) :
  (load now fs g = (false, g1) ->
   avellaneda_params g1 = None /\
   forall later, cache_fresh later g1 = false) /\
  (cache_fresh now g = false ->
   load now fs g = (true, g1) ->
   forall later fs',
     later - now < 900 ->
     load later fs' g1 = (true, g1)).
Proof.
  split.
  - intro H.
    assert (avellaneda_params g1 = None) as Hn.
    { destruct (cache_fresh now g) eqn:Hf.
      - unfold load_avellaneda_parameters in H. rewrite Hf in H. discriminate.
      - rewrite (load_reload _ _ _ now fs g Hf) in H. unfold reload in H.
        destruct (first_existing _) as [[| | |data]|];
          try (injection H as <-; reflexivity).
        destruct (valid_params float_of_str data); [discriminate|].
        injection H as <-. reflexivity. }
    split; [exact Hn|]. intro later. unfold cache_fresh. rewrite Hn.
    reflexivity.
  - intros Hf H later fs' Hlater.
    rewrite (load_reload _ _ _ now fs g Hf) in H. unfold reload in H.
    destruct (first_existing _) as [[| | |data]|]; try discriminate.
    destruct (valid_params float_of_str data); [|discriminate].
    injection H as <-. unfold load_avellaneda_parameters, cache_fresh.
    cbn [avellaneda_params last_avellaneda_update set_last_avellaneda_update
         set_avellaneda_params].
    assert (Qlt_bool (later - now) AVELLANEDA_REFRESH_INTERVAL = true) as ->
        by (apply Qlt_bool_iff; unfold AVELLANEDA_REFRESH_INTERVAL; exact Hlater).
    reflexivity.
Qed.

End CachingFacts.

(** ** Closing a long position at startup *)


(** ** The properties at sample inputs *)

Lemma two_sided_book_example :
  get_current_mid_price no_str_float 1000
    (on_order_book_update no_str_float 48 20 48 (JObj sample_book_items)
       initial_market)
  = Mid (Fin ((99 + 101) / 2)).
Proof.
  exact (proj1 (two_sided_book_mid_always_available no_str_float 48 20 1000
                  sample_book_items initial_market 99 101
                  eq_refl eq_refl eq_refl eq_refl)).
Defined.

Lemma one_sided_book_example :
  get_current_mid_price no_str_float 35
    (on_order_book_update no_str_float 48 30 48 (JObj bidless_book_items)
       sample_market)
  = Mid (Fin ((99 + 101) / 2)) /\
  get_current_mid_price no_str_float 40
    (on_order_book_update no_str_float 48 30 48 (JObj bidless_book_items)
       sample_market)
  = NoMid.
Proof.
  split.
  - exact (proj1 (proj2 (one_sided_book_keeps_cached_mid no_str_float 48 30 35
                           bidless_book_items sample_market
                           (Fin ((99 + 101) / 2)) eq_refl eq_refl)) eq_refl).
  - apply (proj2 (proj2 (one_sided_book_keeps_cached_mid no_str_float 48 30 40
                           bidless_book_items sample_market
                           (Fin ((99 + 101) / 2)) eq_refl eq_refl))).
    discriminate.
Defined.

Lemma malformed_book_example :
  on_order_book_update no_str_float 48 30 48 unpriced_book sample_market
  = set_ws_connection_healthy false sample_market /\
  fst (check_websocket_health 31 TaskRunning
         (on_order_book_update no_str_float 48 30 48 unpriced_book
            sample_market)) = false.
Proof.
  apply (malformed_book_marks_unhealthy no_str_float 48 30 31 TaskRunning
           unpriced_book sample_market).
  right. eexists. split; [reflexivity|]. split; [reflexivity|].
  left. reflexivity.
Defined.

Lemma health_after_update_example :
  fst (check_websocket_health 45 TaskRunning sample_market) = true.
Proof.
  apply (proj1 (health_after_update no_str_float 48 20 45 TaskRunning
                  (JObj sample_book_items) initial_market
                  (Some (Fin ((99 + 101) / 2))) eq_refl)).
  split; [discriminate | intros failed; discriminate].
Defined.

Lemma position_update_example :
  is_number
    (current_position_size
       (on_account_all_update no_str_float 7 "48" 7 (JObj sample_account_items)
          initial_globals)) 3.
Proof.
  apply (proj1 (proj2 (proj2 (position_update no_str_float 7 "48"
                                sample_account_items
                                [("48", JObj [("position", JNum (Fin 3))])]
                                initial_globals eq_refl)))
           [("position", JNum (Fin 3))] 3 eq_refl).
  - discriminate.
  - reflexivity.
Defined.

Lemma run_placed_reachable :
  reachable no_str_float 7 "48" "params" "PAXG" false true 0.0001 0.01 false
    run_placed.
Proof.
  unfold run_placed.
  eapply reach_step; [|apply step_place].
  eapply reach_step; [|apply step_requote].
  change (Quoted (Fin 100) run_quote true, run_quoted)
    with (begin_cycle no_str_float "params" "PAXG" false true true
            (Some (Fin 100)) 0 fs_missing run_started).
  eapply reach_step; [|apply step_begin].
  change (Top, run_started)
    with (start_trading 0.0001 0.01 false None 0 Ack
            (snd (boot Ack initial_world))).
  eapply reach_step; [|apply step_start].
  change (Starting, snd (boot Ack initial_world))
    with (boot Ack initial_world).
  eapply reach_step; [apply reach_init | apply step_boot].
Qed.

Lemma requests_well_formed_example :
  Forall good_request (requests (snd run_placed)) /\
  ((fst run_placed = Boot /\ requests (snd run_placed) = []) \/
   exists rest, requests (snd run_placed) = CancelAllOrders :: rest).
Proof.
  exact (requests_well_formed no_str_float 7 "48" "params" "PAXG" false true
           0.0001 0.01 false run_placed run_placed_reachable).
Defined.

Lemma recorded_order_has_last_mid_example :
  last_mid_price (glob (snd run_placed)) <> None.
Proof.
  apply (recorded_order_has_last_mid no_str_float 7 "48" "params" "PAXG"
           false true 0.0001 0.01 false run_placed run_placed_reachable).
  discriminate.
Defined.

Lemma sell_size_example :
  order_size true (Fin 4) selling_globals = Ok (Fin 5) /\
  order_size true (Fin 2) selling_globals = Ok (Fin 0).
Proof.
  split.
  - apply (proj1 (sell_size_all_or_nothing true selling_globals 5 4
                    eq_refl eq_refl)).
    split; [reflexivity | discriminate].
  - apply (proj2 (sell_size_all_or_nothing true selling_globals 5 2
                    eq_refl eq_refl)).
    intros [_ H]. apply H. reflexivity.
Defined.


Lemma startup_side_example :
  order_side
    (glob (snd (start_trading 0.0001 0.01 false (Some (Fin 4)) 0 Ack
                  holding_world))) = Sell /\
  order_size true (Fin 4)
    (glob (snd (start_trading 0.0001 0.01 false (Some (Fin 4)) 0 Ack
                  holding_world))) = Ok (Fin 5).
Proof.
  destruct (startup_side true 0.0001 0.01 (Some (Fin 4)) 0 Ack holding_world 5
              eq_refl) as (_ & _ & _ & _ & _ & _ & H).
  apply (proj2 (H 4 eq_refl eq_refl)). discriminate.
Defined.

Lemma ledger_example :
  (List.length (fst (update_recent_trades same_trade_id presorted
                       sample_trades [])) <= 20)%nat /\
  distinct_trades same_trade_id
    (fst (update_recent_trades same_trade_id presorted sample_trades [])).
Proof.
  destruct (ledger_bounded_and_distinct same_trade_id presorted sample_trades
              [] (Nat.le_0_l 20) (FOP_nil _)) as (H1 & H2 & _).
  split; assumption.
Defined.


(** ** Quotes and the mid *)

Section QuoteSideFacts.

Variable float_of_str : string -> option pyfloat.
Variable PARAMS_DIR : string.
Variable MARKET_SYMBOL : string.
Variable REQUIRE_PARAMS : bool.

(** X18: from a validated cache and a mid that is not negative, a quote is
    never on the wrong side of the mid: a Buy quote is at or below it and a
    Sell quote at or above it, with loaded parameters and with the static
    spread alike; and pricing never raises. *)
Theorem quotes_do_not_cross_mid
    (now : Q) (fs : string -> file_read) (g : globals) (mid : Q) (s : side) :
  cache_ok float_of_str g ->
  0 <= mid ->
  let result := fst (calculate_order_price float_of_str PARAMS_DIR
                       MARKET_SYMBOL REQUIRE_PARAMS now fs (Fin mid) s g) in
  result = Ok None \/
  exists p,
    result = Ok (Some (Fin p)) /\
    match s with
    | Buy => p <= mid
    | Sell => mid <= p
    end.
Proof.
  intros Hok Hmid. cbv zeta. unfold calculate_order_price.
  pose proof (load_keeps_cache_ok float_of_str PARAMS_DIR MARKET_SYMBOL
                now fs g Hok) as Hok'.
  destruct (load_avellaneda_parameters _ _ _ now fs g) as [ok g'].
  cbn [snd] in Hok'. unfold cache_ok in Hok'.
  unfold params_truthy, param_offset.
  destruct (ok && _) eqn:Ec.
  - apply andb_prop in Ec as [_ Ht].
    destruct (avellaneda_params g') as [data|]; [|discriminate].
    unfold valid_params in Hok'. apply andb_prop in Hok' as [_ Hv].
    destruct (validate_params float_of_str data) as [[]|] eqn:Ev;
      try discriminate.
    destruct (validate_params_true float_of_str data Ev)
      as (kv & lo & va & vb & da & db
          & -> & Hkv & Ha & Hb & Hfa & Hfb & Hda & Hdb).
    right. cbn [py_item bind fst]. rewrite Hkv. cbn [py_item bind].
    destruct s.
    + rewrite Hb. cbn [bind]. rewrite Hfb. cbn.
      eexists. split; [reflexivity|]. lra.
    + rewrite Ha. cbn [bind]. rewrite Hfa. cbn.
      eexists. split; [reflexivity|]. lra.
  - destruct REQUIRE_PARAMS; [left; reflexivity|].
    right. destruct (static_quote mid s) as (r & Hq & Hr).
    exists r. split; [destruct s; cbn [fst]; rewrite <- Hq; reflexivity|].
    destruct s; rewrite Hr; lra.
Qed.

End QuoteSideFacts.

Lemma quotes_do_not_cross_mid_example :
  fst (calculate_order_price no_str_float "params" "PAXG" false 0 fs_good
         (Fin 100) Buy initial_globals) = Ok None \/
  exists p,
    fst (calculate_order_price no_str_float "params" "PAXG" false 0 fs_good
           (Fin 100) Buy initial_globals) = Ok (Some (Fin p)) /\
    p <= 100.
Proof.
  apply (quotes_do_not_cross_mid no_str_float "params" "PAXG" false 0 fs_good
           initial_globals 100 Buy I).
  discriminate.
Defined.
